(** * Terraform provider for ncloud: server resource, member server images
      data source and schema validators.

    A shallow embedding of [ncloud/validators.go], of the member server
    images data source and of the server resource (create, read, update,
    delete, retry and poll helpers), followed by the properties of the
    retry / poll protocol that the provider relies on. *)

From Stdlib Require Import ZArith String Ascii List Lia Bool.
From stdpp Require Import base gmap strings list pretty.
Import ListNotations.

Local Open Scope Z_scope.

(* ===================================================================== *)
(** * Part I: definitions                                                 *)
(* ===================================================================== *)

(** ** Go basics *)

(** A Go [error] value is represented by its message; [nil] is [None]. *)
Definition error : Type := string.

(** [len(s)] of a Go string: its number of bytes. *)
Definition len (s : string) : Z := Z.of_nat (String.length s).

(** [time.Duration]: a count of nanoseconds. *)
Definition Duration : Type := Z.

Module time.
Definition Nanosecond : Duration := 1.
Definition Millisecond : Duration := 1000000.
Definition Second : Duration := 1000 * Millisecond.
Definition Minute : Duration := 60 * Second.
Definition Hour : Duration := 60 * Minute.
End time.

(** Package [strings] of the Go standard library. *)
Module GoStrings.

(** Scan [s] from offset [i], remembering in [best] the last offset at
    which [substr] starts. *)
Fixpoint lastIndexFrom (substr s : string) (i best : Z) : Z :=
  match s with
  | EmptyString => if String.prefix substr EmptyString then i else best
  | String _ s' =>
      lastIndexFrom substr s' (i + 1)
                    (if String.prefix substr s then i else best)
  end.

(** [strings.LastIndex(s, substr)]: the index of the last instance of
    [substr] in [s], or -1 when there is none. *)
Definition LastIndex (s substr : string) : Z := lastIndexFrom substr s 0 (-1).

(** [strings.Join(elems, sep)]. *)
Fixpoint Join (elems : list string) (sep : string) : string :=
  match elems with
  | [] => ""
  | [e] => e
  | e :: rest => e +:+ sep +:+ Join rest sep
  end.

(** [strings.Contains(s, substr)]. *)
Fixpoint Contains (s substr : string) : bool :=
  String.prefix substr s ||
  match s with
  | EmptyString => false
  | String _ s' => Contains s' substr
  end.

End GoStrings.

(** Formatting verbs of package [fmt] whose output is computed by the
    library: [%q] quotes a string as [strconv.Quote] does, [%d] prints
    an integer in decimal as [strconv.Itoa] does. *)
Class Fmt := { strconvQuote : string -> string; strconvItoa : Z -> string }.

(** ** validators.go *)

Section Validators.
Context `{Fmt}.

Definition boolValueStrings : list string := ["true"; "false"].

(** A validator of the schema: warnings and errors for a value under
    the attribute key [k]. *)
Definition SchemaValidateFunc : Type := string -> string -> list string * list error.

Fixpoint stringIn (value : string) (l : list string) : bool :=
  match l with
  | [] => false
  | included :: rest => if String.eqb value included then true else stringIn value rest
  end.

Definition validateBoolValue (value k : string) : list string * list error :=
  if stringIn value boolValueStrings then ([], [])
  else ([], [k +:+ " should be " +:+ GoStrings.Join boolValueStrings " or "]).

Definition validateInternetLineTypeCode (value k : string) : list string * list error :=
  if negb (String.eqb value "PUBLC") && negb (String.eqb value "GLBL")
  then ([], [k +:+ " must be one of PUBLC GLBL"])
  else ([], []).

(** The character class of [serverNamePattern], as package
    [regexp/syntax] reads the raw pattern: an opening bracket, then
    ( A-Z | a-z | 0-9 | \\ - | \\ * ) written without the spaces,
    then a closing bracket and a plus.  The members are listed in the
    order of the pattern, each a range of code points.  After the
    first escaped backslash the hyphen makes a range that ends at the
    following vertical bar; the second escaped backslash stands alone
    and is followed by the star and the closing parenthesis. *)
Definition serverNameClass : list (N * N) :=
  [ (40, 40)      (* opening parenthesis *)
  ; (65, 90)      (* A to Z *)
  ; (124, 124)    (* vertical bar *)
  ; (97, 122)     (* a to z *)
  ; (124, 124)    (* vertical bar *)
  ; (48, 57)      (* 0 to 9 *)
  ; (124, 124)    (* vertical bar *)
  ; (92, 124)     (* backslash up to the vertical bar *)
  ; (92, 92)      (* backslash *)
  ; (42, 42)      (* star *)
  ; (41, 41)      (* closing parenthesis *)
  ]%N.

Definition inClass (class : list (N * N)) (c : ascii) : bool :=
  existsb (fun r => (fst r <=? N_of_ascii c)%N && (N_of_ascii c <=? snd r)%N) class.

(** [MatchString] for a pattern [[class]+]: the pattern is not
    anchored, so it matches when one or more consecutive bytes of the
    class occur anywhere, that is when the leftmost byte of the class
    is found.  All members of [serverNameClass] are ASCII, and a byte
    below 128 always decodes to itself, so the search is on bytes. *)
Fixpoint matchClassPlus (class : list (N * N)) (s : string) : bool :=
  match s with
  | EmptyString => false
  | String c s' => if inClass class c then true else matchClassPlus class s'
  end.

Definition serverNamePattern_MatchString (value : string) : bool :=
  matchClassPlus serverNameClass value.

Definition validateStringLengthInRange (min max : Z) : SchemaValidateFunc :=
  fun value k =>
    if (len value <? min) || (len value >? max)
    then ([], ["must be a valid " +:+ strconvQuote k +:+ " characters between "
                 +:+ strconvItoa min +:+ " and " +:+ strconvItoa max])
    else ([], []).

Definition serverNameLengthError (k : string) : error :=
  "must be a valid " +:+ strconvQuote k +:+ " characters between 1 and 30".

Definition serverNamePatternError : error :=
  "server name is composed of alphabets, numbers, hyphen (-) and wild card (*).<br> Hyphen (-) cannot be used for the last character and if wild card (*) is used, other characters cannot be input.<br> Maximum length is 63Bytes, and the minimum is 1Byte".

(** [validateServerName]: the validator built by
    [validateStringLengthInRange(3, 30)] is created and dropped, it is
    never applied to the value. *)
Definition validateServerName (value k : string) : list string * list error :=
  let _ := validateStringLengthInRange 3 30 in
  let errors : list error := [] in
  let errors :=
    if (len value <? 3) || (len value >? 30)
    then errors ++ [serverNameLengthError k] else errors in
  let errors :=
    if negb (serverNamePattern_MatchString value)
       || (GoStrings.LastIndex value "-" =? len value - 1)
    then errors ++ [serverNamePatternError] else errors in
  ([], errors).

Definition validateIncludes (includeValues : list string) (v k : string) : option error :=
  if stringIn v includeValues then None
  else Some (k +:+ " should be " +:+ GoStrings.Join includeValues " or ").

End Validators.

(** The characters the server-name message documents as allowed
    (letters, digits, hyphen, wild card), used to state what the
    validator is expected to look for. *)
Definition isAlnum (c : ascii) : bool :=
  let n := N_of_ascii c in
  ((48 <=? n) && (n <=? 57) || (65 <=? n) && (n <=? 90) || (97 <=? n) && (n <=? 122))%N.

Definition isAlnumHyphenStar (c : ascii) : bool :=
  isAlnum c || Ascii.eqb c "-" || Ascii.eqb c "*".

Fixpoint existsChar (p : ascii -> bool) (s : string) : bool :=
  match s with
  | EmptyString => false
  | String c s' => p c || existsChar p s'
  end.

Fixpoint lastChar (s : string) : option ascii :=
  match s with
  | EmptyString => None
  | String c EmptyString => Some c
  | String _ s' => lastChar s'
  end.

Definition endsInHyphen (s : string) : bool :=
  match lastChar s with
  | Some c => Ascii.eqb c "-"
  | None => false
  end.

(** The bytes that [serverNameClass] holds, spelled out: letters,
    digits, the star, both parentheses, and the punctuation between the
    backslash and the vertical bar.  The hyphen is not among them. *)
Definition serverNameClassBytes : string := "()*\]^_`{|".

Definition isServerNameClassChar (c : ascii) : bool :=
  isAlnum c || existsChar (Ascii.eqb c) serverNameClassBytes.

(** A [Fmt] instance for running examples: quoting of plain ASCII text
    without characters to escape. *)
Definition plainFmt : Fmt :=
  {| strconvQuote := fun s => String (ascii_of_nat 34) (s +:+ String (ascii_of_nat 34) "");
     strconvItoa := fun z => pretty z |}.

(** ** The vendor SDK *)

Module ncloud.
(** [ncloud.StringValue]: the string a pointer refers to, the empty
    string for a nil pointer. *)
Definition StringValue (p : option string) : string :=
  match p with Some s => s | None => "" end.

Definition String_ (s : string) : option string := Some s.
End ncloud.

Module server.

Record CommonCode := { Code : option string; CodeName : option string }.

Record Zone := { ZoneNo : option string; ZoneName : option string }.

Record Region := { RegionNo : option string; RegionCode : option string }.

Record InstanceTag := { TagKey : option string; TagValue : option string }.

Record MemberServerImage := {
  MemberServerImageNo : option string;
  MemberServerImageName : option string;
  MemberServerImageDescription : option string;
  OriginalServerInstanceNo : option string;
  MemberServerImageStatus : option CommonCode;
}.

Record ServerInstance := {
  ServerInstanceNo : option string;
  ServerName : option string;
  ServerImageProductCode : option string;
  ServerInstanceStatusName : option string;
  Uptime : option string;
  ServerImageName : option string;
  PrivateIp : option string;
  CpuCount : option Z;
  MemorySize : option Z;
  BaseBlockStorageSize : option Z;
  IsFeeChargingMonitoring : option bool;
  PublicIp : option string;
  CreateDate : option string;
  PortForwardingPublicIp : option string;
  PortForwardingExternalPort : option Z;
  PortForwardingInternalPort : option Z;
  ServerInstanceStatus : option CommonCode;
  PlatformType : option CommonCode;
  ServerInstanceOperation : option CommonCode;
  ServerZone : option Zone;
  ServerRegion : option Region;
  BaseBlockStorageDiskType : option CommonCode;
  BaseBlockStroageDiskDetailType : option CommonCode;
  InternetLineType : option CommonCode;
  InstanceTagList : list InstanceTag;
}.

(** Every response carries the common part ([ReturnCode],
    [ReturnMessage]).  The responses of CreateServerInstances,
    GetServerInstanceList, StopServerInstances,
    TerminateServerInstances and ChangeServerInstanceSpec all have the
    same shape. *)
Record ServerInstancesResponse := {
  ReturnCode : option string;
  ReturnMessage : option string;
  ServerInstanceList : list ServerInstance;
}.

Record GetMemberServerImageListResponse := {
  ImagesReturnCode : option string;
  ImagesReturnMessage : option string;
  MemberServerImageList : list MemberServerImage;
}.

Record CreateServerInstancesRequest := {
  ReqServerImageProductCode : option string;
  ReqServerProductCode : option string;
  ReqMemberServerImageNo : option string;
  ReqServerName : option string;
  ReqServerDescription : option string;
  ReqLoginKeyName : option string;
  ReqInternetLineTypeCode : option string;
  ReqFeeSystemTypeCode : option string;
  ReqZoneNo : option string;
  ReqAccessControlGroupConfigurationNoList : list (option string);
  ReqUserData : option string;
  ReqRaidTypeName : option string;
  ReqInstanceTagList : list InstanceTag;
  ReqIsProtectServerTermination : option bool;
}.

(** What a call of the API hands back: a response pointer and an
    error, either of which may be nil. *)
Definition Result (R : Type) : Type := option R * option error.

End server.

(** ** The host schema: [schema.ResourceData] *)

Module schema.

#[local] Unset Elimination Schemes.
Inductive Value :=
| VNil
| VString (s : string)
| VInt (z : Z)
| VBool (b : bool)
| VList (l : list Value)
| VMap (m : list (string * Value)).
#[local] Set Elimination Schemes.

(** The zero value of each type: [GetOk] reports such a value as not
    set. *)
Definition isZero (v : Value) : bool :=
  match v with
  | VNil => true
  | VString s => String.eqb s ""
  | VInt z => z =? 0
  | VBool b => negb b
  | VList l => match l with [] => true | _ => false end
  | VMap m => match m with [] => true | _ => false end
  end.

(** [v.(string)] on a value of a [TypeString] attribute. *)
Definition asString (v : Value) : string :=
  match v with VString s => s | _ => "" end.

Definition ofStringPtr (p : option string) : Value :=
  match p with Some s => VString s | None => VNil end.

Definition ofIntPtr (p : option Z) : Value :=
  match p with Some z => VInt z | None => VNil end.

Definition ofBoolPtr (p : option bool) : Value :=
  match p with Some b => VBool b | None => VNil end.

(** The resource data of one lifecycle call.  Go passes a pointer and
    updates it in place; here every operation returns the new record. *)
Record ResourceData := {
  Id : string;
  attrs : gmap string Value;
  changed : gset string;
  timeoutDelete : option Duration;
}.

Definition SetId (d : ResourceData) (id : string) : ResourceData :=
  {| Id := id; attrs := attrs d; changed := changed d; timeoutDelete := timeoutDelete d |}.

Definition Get (d : ResourceData) (k : string) : Value :=
  match attrs d !! k with Some v => v | None => VNil end.

(** [d.GetOk(k)] returns the value and whether it is set to a value
    other than the zero value; the callers read the value only when it
    is, so the pair is an option here. *)
Definition GetOk (d : ResourceData) (k : string) : option Value :=
  match attrs d !! k with
  | Some v => if isZero v then None else Some v
  | None => None
  end.

Definition HasChange (d : ResourceData) (k : string) : bool :=
  bool_decide (k ∈ changed d).

(** The part of [d.Set] that the host decides: whether the value fits
    the schema of the key. *)
Class Schema := { setError : string -> Value -> option error }.

Definition Set_ `{Schema} (d : ResourceData) (k : string) (v : Value)
  : ResourceData * option error :=
  match setError k v with
  | Some err => (d, Some err)
  | None =>
      ({| Id := Id d; attrs := <[k := v]> (attrs d); changed := changed d;
          timeoutDelete := timeoutDelete d |}, None)
  end.

End schema.

Export schema(Value, VNil, VString, VInt, VBool, VList, VMap, ResourceData, Schema).

(** ** The world outside the provider *)

(** The server calls of the vendor API. *)
Inductive Api :=
| CreateServerInstances
| GetServerInstanceList
| StopServerInstances
| TerminateServerInstances
| ChangeServerInstanceSpec.

(** One observable action of the provider. *)
Inductive Call :=
| CallServer (api : Api) (serverInstanceNo : string)
| CallGetMemberServerImageList
| CallDetachBlockStorage (serverInstanceNo : string).

Definition ApiResult : Type := server.Result server.ServerInstancesResponse.

(** The environment is a script: for each call of the API the answers
    the vendor will give, in order, each with the time that passes from
    the moment the call is due until the answer is there.  A script that
    has run out stands for a vendor that does not answer any more.
    [calls] is the log of the calls made so far, [files] the files
    written by [writeToFile]. *)
Record World := {
  createResponses : list (Duration * ApiResult);
  getResponses : list (Duration * ApiResult);
  stopResponses : list (Duration * ApiResult);
  terminateResponses : list (Duration * ApiResult);
  changeSpecResponses : list (Duration * ApiResult);
  imageListResponses : list (server.Result server.GetMemberServerImageListResponse);
  detachResults : list (option error);
  calls : list Call;
  files : list (string * Value);
}.

Definition script (api : Api) (w : World) : list (Duration * ApiResult) :=
  match api with
  | CreateServerInstances => createResponses w
  | GetServerInstanceList => getResponses w
  | StopServerInstances => stopResponses w
  | TerminateServerInstances => terminateResponses w
  | ChangeServerInstanceSpec => changeSpecResponses w
  end.

Definition setScript (api : Api) (l : list (Duration * ApiResult)) (w : World) : World :=
  {| createResponses := match api with CreateServerInstances => l | _ => createResponses w end;
     getResponses := match api with GetServerInstanceList => l | _ => getResponses w end;
     stopResponses := match api with StopServerInstances => l | _ => stopResponses w end;
     terminateResponses := match api with TerminateServerInstances => l | _ => terminateResponses w end;
     changeSpecResponses := match api with ChangeServerInstanceSpec => l | _ => changeSpecResponses w end;
     imageListResponses := imageListResponses w;
     detachResults := detachResults w;
     calls := calls w;
     files := files w |}.

Definition logCalls (cs : list Call) (w : World) : World :=
  {| createResponses := createResponses w;
     getResponses := getResponses w;
     stopResponses := stopResponses w;
     terminateResponses := terminateResponses w;
     changeSpecResponses := changeSpecResponses w;
     imageListResponses := imageListResponses w;
     detachResults := detachResults w;
     calls := calls w ++ cs;
     files := files w |}.

(** ** Running Go code: return, panic, or block for ever *)

Inductive PanicKind := NilDereference | IndexOutOfRange | RegexpMustCompile.

(** A computation without effects that may panic. *)
Inductive Try (A : Type) :=
| Ok (a : A)
| Panic (p : PanicKind).
Arguments Ok {A} a.
Arguments Panic {A} p.

Inductive Outcome (A : Type) :=
| Returned (a : A) (w : World)
| Panicked (p : PanicKind) (w : World)
| Blocked (w : World).
Arguments Returned {A} a w.
Arguments Panicked {A} p w.
Arguments Blocked {A} w.

Definition M (A : Type) : Type := World -> Outcome A.

Definition ret {A} (a : A) : M A := fun w => Returned a w.

Definition bind {A B} (m : M A) (k : A -> M B) : M B :=
  fun w =>
    match m w with
    | Returned a w' => k a w'
    | Panicked p w' => Panicked p w'
    | Blocked w' => Blocked w'
    end.

Definition panic {A} (p : PanicKind) : M A := fun w => Panicked p w.

Definition liftTry {A} (t : Try A) : M A :=
  match t with Ok a => ret a | Panic p => panic p end.

Declare Scope go_scope.
Delimit Scope go_scope with go.
Notation "x <- m ;; k" := (bind m (fun x => k))
  (at level 100, m at next level, right associativity) : go_scope.
Local Open Scope go_scope.

(** A call of one of the server APIs: log it, then take the next answer
    of the script. *)
Definition callServer (api : Api) (serverInstanceNo : string) : M (Duration * ApiResult) :=
  fun w =>
    let w := logCalls [CallServer api serverInstanceNo] w in
    match script api w with
    | [] => Blocked w
    | r :: rest => Returned r (setScript api rest w)
    end.

Definition callGetMemberServerImageList
  : M (server.Result server.GetMemberServerImageListResponse) :=
  fun w =>
    let w := logCalls [CallGetMemberServerImageList] w in
    match imageListResponses w with
    | [] => Blocked w
    | r :: rest =>
        Returned r
          {| createResponses := createResponses w;
             getResponses := getResponses w;
             stopResponses := stopResponses w;
             terminateResponses := terminateResponses w;
             changeSpecResponses := changeSpecResponses w;
             imageListResponses := rest;
             detachResults := detachResults w;
             calls := calls w;
             files := files w |}
    end.

(** ** Parts of the package that are declared in other files *)

(** Constants of the package: the vendor's error codes and the default
    timeouts. *)
Class Constants := {
  ApiErrorUnknown : string;
  ApiErrorAuthorityParameter : string;
  ApiErrorServerObjectInOperation : string;
  ApiErrorServerObjectInOperation2 : string;
  ApiErrorPreviousServersHaveNotBeenEntirelyTerminated : string;
  ApiErrorObjectInOperation : string;
  DefaultCreateTimeout : Duration;
  DefaultTimeout : Duration;
}.

(** Helpers of the package whose results are only passed on here: the
    parsers of the region and zone parameters, the hash that names a
    data source, the flatteners of vendor objects and the expanders of
    attribute values. *)
Class Helpers := {
  parseRegionNoParameter : ResourceData -> option string * option error;
  parseZoneNoParameter : ResourceData -> option string * option error;
  dataResourceIdHash : list string -> string;
  flattenMemberServerImages : list server.MemberServerImage -> Value;
  flattenCommonCode : option server.CommonCode -> Value;
  flattenZone : option server.Zone -> Value;
  flattenRegion : option server.Region -> Value;
  flattenInstanceTagList : list server.InstanceTag -> Value;
  expandStringInterfaceList : Value -> list (option string);
  expandTagListParams : Value -> list server.InstanceTag * option error;
  StringPtrOrNil : option Value -> option string;
}.

(** Package [regexp]: [Compile] gives the matcher of a pattern
    ([MatchString] of the compiled expression), or nothing for a pattern
    that does not parse, on which [MustCompile] panics. *)
Class Regexp := { regexpCompile : string -> option (string -> bool) }.

Record CommonResponse := {
  commonReturnCode : option string;
  commonReturnMessage : option string;
}.

(** Modelled from the spec: [GetCommonResponse] is declared in a file
    not at hand.  It extracts the common part of a response, the return
    code and message that "the response carries"; a nil response
    carries none. *)
Definition GetCommonResponse (resp : option server.ServerInstancesResponse) : CommonResponse :=
  match resp with
  | Some r => {| commonReturnCode := server.ReturnCode r;
                 commonReturnMessage := server.ReturnMessage r |}
  | None => {| commonReturnCode := None; commonReturnMessage := None |}
  end.

(** Modelled from the spec: [isRetryableErr] is declared in a file not
    at hand.  It tells whether "the response carries one of a known set
    of" error codes: whether the return code of the response is one of
    [codes]. *)
Definition isRetryableErr (commResp : CommonResponse) (codes : list string) : bool :=
  match commonReturnCode commResp with
  | Some code => existsb (String.eqb code) codes
  | None => false
  end.

(** ** The host's retry helper: package [helper/resource] *)

Module resource.

Record RetryError := { Err : error; Retryable : bool }.

(** Both constructors give nil for a nil error. *)
Definition RetryableError (err : option error) : option RetryError :=
  match err with
  | Some e => Some {| Err := e; Retryable := true |}
  | None => None
  end.

Definition NonRetryableError (err : option error) : option RetryError :=
  match err with
  | Some e => Some {| Err := e; Retryable := false |}
  | None => None
  end.

(** What the source does not fix of the library: the message of its
    timeout error, and the time it waits before it calls the closure
    again, after the attempt numbered [n] (the first is numbered 0) has
    asked for a retry. *)
Class Wait := {
  timeoutError : Duration -> error;
  retryWait : nat -> Duration;
}.

(** What one run of [Retry] leaves behind: its result, the answer on
    which the run ended (the value of the variables the closure
    assigns; the callers read them only after a run without error, and a
    run that ends by the timeout leaves none), the number of calls made
    and the unread answers. *)
Record Run (R : Type) := {
  result : option error;
  last : option R;
  attempts : nat;
  rest : list (Duration * R);
}.
Arguments result {R} _.
Arguments last {R} _.
Arguments attempts {R} _.
Arguments rest {R} _.

(** The error [Retry] gives back when the time is up: the error of the
    last attempt when there is one, the timeout error otherwise. *)
Definition timedOut `{Wait} (timeout : Duration) (resultErr : option error) : error :=
  match resultErr with
  | Some e => e
  | None => timeoutError timeout
  end.

(** [Retry(timeout, f)]: call [f] again and again.  A nil result ends
    the run with success, an error that is not retryable ends it with
    that error, a retryable error is remembered and [f] is called
    again after the wait of the library, until [timeout] has passed.
    [f] is given here as the part of the closure that follows the call
    of the API: from the answer to a pause (the [time.Sleep] of the
    closure) and a result.  [n] is the number of the attempt and
    [elapsed] the time since the start of the run. *)
Fixpoint retryFrom `{Wait} {R} (n : nat) (timeout : Duration)
         (f : R -> Duration * option RetryError)
         (elapsed : Duration) (resultErr : option error)
         (answers : list (Duration * R)) : Run R :=
  match answers with
  | [] =>
      {| result := Some (timedOut timeout resultErr); last := None;
         attempts := 1; rest := [] |}
  | (took, r) :: answers' =>
      if timeout <=? elapsed + took then
        {| result := Some (timedOut timeout resultErr); last := None;
           attempts := 1; rest := answers' |}
      else
        match f r with
        | (_, None) =>
            {| result := None; last := Some r; attempts := 1; rest := answers' |}
        | (pause, Some rerr) =>
            if Retryable rerr then
              let run := retryFrom (S n) timeout f
                                   (elapsed + took + pause + retryWait n)
                                   (Some (Err rerr)) answers' in
              {| result := result run; last := last run;
                 attempts := S (attempts run); rest := rest run |}
            else
              {| result := Some (Err rerr); last := Some r;
                 attempts := 1; rest := answers' |}
        end
  end.

Definition retry `{Wait} {R} (timeout : Duration)
           (f : R -> Duration * option RetryError)
           (elapsed : Duration) (resultErr : option error)
           (answers : list (Duration * R)) : Run R :=
  retryFrom 0 timeout f elapsed resultErr answers.

End resource.

Export resource(RetryError, RetryableError, NonRetryableError, Wait).

(** [resource.Retry] around a closure that calls [api] and then decides
    with [f]: the calls are logged and the answers read are removed from
    the script.  The result is the error of [Retry] and the last answer
    assigned by the closure. *)
Definition Retry `{Wait} (timeout : Duration) (api : Api) (arg : string)
           (f : ApiResult -> Duration * option RetryError)
  : M (option error * option ApiResult) :=
  fun w =>
    let run := resource.retry timeout f 0 None (script api w) in
    Returned (resource.result run, resource.last run)
             (setScript api (resource.rest run)
                (logCalls (repeat (CallServer api arg) (resource.attempts run)) w)).

(** ** The member server images data source *)

Section MemberServerImages.
Context `{Helpers} `{Regexp} `{Schema}.

(** The loop that keeps the images whose name matches [r]. *)
Definition filterByName (r : string -> bool) (allMemberServerImages : list server.MemberServerImage)
  : list server.MemberServerImage :=
  fold_left
    (fun filtered memberServerImage =>
       if r (ncloud.StringValue (server.MemberServerImageName memberServerImage))
       then filtered ++ [memberServerImage]
       else filtered)
    allMemberServerImages [].

(** The choice of [filteredMemberServerImages]: by the name pattern
    when [member_server_image_name_regex] is set, the whole list
    otherwise. *)
Definition filteredMemberServerImages (d : ResourceData)
           (allMemberServerImages : list server.MemberServerImage)
  : Try (list server.MemberServerImage) :=
  match schema.GetOk d "member_server_image_name_regex" with
  | Some nameRegex =>
      match regexpCompile (schema.asString nameRegex) with
      | Some r => Ok (filterByName r allMemberServerImages)
      | None => Panic RegexpMustCompile
      end
  | None => Ok allMemberServerImages
  end.

Definition noResultsError : error :=
  "no results. please change search criteria and try again".

(** Modelled from the spec: [writeToFile] is declared in a file not at
    hand.  The "resource attributes" are "serialized to a file path":
    the world records which value went to which path. *)
Definition writeToFile (path : string) (v : Value) : M unit :=
  fun w =>
    Returned tt
      {| createResponses := createResponses w;
         getResponses := getResponses w;
         stopResponses := stopResponses w;
         terminateResponses := terminateResponses w;
         changeSpecResponses := changeSpecResponses w;
         imageListResponses := imageListResponses w;
         detachResults := detachResults w;
         calls := calls w;
         files := files w ++ [(path, v)] |}.

(** The loop that collects the image numbers; it dereferences each
    [MemberServerImageNo]. *)
Fixpoint collectIds (ids : list string) (memberServerImages : list server.MemberServerImage)
  : Try (list string) :=
  match memberServerImages with
  | [] => Ok ids
  | m :: more =>
      match server.MemberServerImageNo m with
      | Some no => collectIds (ids ++ [no]) more
      | None => Panic NilDereference
      end
  end.

Definition memberServerImagesAttributes (d : ResourceData)
           (memberServerImages : list server.MemberServerImage)
  : M (ResourceData * option error) :=
  ids <- liftTry (collectIds [] memberServerImages);;
  let d := schema.SetId d (dataResourceIdHash ids) in
  match schema.Set_ d "member_server_images" (flattenMemberServerImages memberServerImages) with
  | (d, Some err) => ret (d, Some err)
  | (d, None) =>
      match schema.GetOk d "output_file" with
      | Some output =>
          if negb (String.eqb (schema.asString output) "")
          then _ <- writeToFile (schema.asString output) (schema.Get d "member_server_images");;
               ret (d, None)
          else ret (d, None)
      | None => ret (d, None)
      end
  end.

Definition dataSourceNcloudMemberServerImagesRead (d : ResourceData)
  : M (ResourceData * option error) :=
  match parseRegionNoParameter d with
  | (_, Some err) => ret (d, Some err)
  | (regionNo, None) =>
      answer <- callGetMemberServerImageList;;
      match answer with
      | (_, Some err) => ret (d, Some err)
      | (None, None) => panic NilDereference
      | (Some resp, None) =>
          let allMemberServerImages := server.MemberServerImageList resp in
          filtered <- liftTry (filteredMemberServerImages d allMemberServerImages);;
          if Z.of_nat (length filtered) <? 1
          then ret (d, Some noResultsError)
          else memberServerImagesAttributes d filtered
      end
  end.

End MemberServerImages.

(** ** The server resource *)

Section Server.
Context `{Constants} `{Helpers} `{Schema} `{Wait}.

(** The first instance of the answer to GetServerInstanceList, if
    any. *)
Definition getServerInstanceOf (answer : ApiResult)
  : Try (option server.ServerInstance * option error) :=
  match answer with
  | (_, Some err) => Ok (None, Some err)
  | (None, None) => Panic NilDereference
  | (Some resp, None) =>
      match server.ServerInstanceList resp with
      | inst :: _ => Ok (Some inst, None)
      | [] => Ok (None, None)
      end
  end.

Definition getServerInstance (serverInstanceNo : string)
  : M (option server.ServerInstance * option error) :=
  answer <- callServer GetServerInstanceList serverInstanceNo;;
  liftTry (getServerInstanceOf (snd answer)).

(** [ncloud.StringValue(instance.ServerInstanceStatus.Code)]: the
    status pointer is dereferenced. *)
Definition statusCode (instance : server.ServerInstance) : Try string :=
  match server.ServerInstanceStatus instance with
  | Some st => Ok (ncloud.StringValue (server.Code st))
  | None => Panic NilDereference
  end.

Definition stopServerInstance (serverInstanceNo : string) : M (option error) :=
  answer <- callServer StopServerInstances serverInstanceNo;;
  match snd answer with
  | (_, Some err) => ret (Some err)
  | (_, None) => ret None
  end.

Definition terminateAllowList : list string :=
  [ApiErrorUnknown; ApiErrorServerObjectInOperation2].

(** The closure of [terminateServerInstance], after its call of
    TerminateServerInstances. *)
Definition terminateAttempt (answer : ApiResult) : Duration * option RetryError :=
  let '(resp, err) := answer in
  match err, resp with
  | None, None => (0, NonRetryableError err)
  | _, _ =>
      if (match resp with Some _ => true | None => false end)
         && isRetryableErr (GetCommonResponse resp) terminateAllowList
      then (0, RetryableError err)
      else (0, NonRetryableError err)
  end.

Definition terminateServerInstance (serverInstanceNo : string) : M (option error) :=
  r <- Retry (1 * time.Minute) TerminateServerInstances serverInstanceNo terminateAttempt;;
  match fst r with
  | Some err => ret (Some err)
  | None => ret None
  end.

(** How the poll of [waitForServerInstance] ends: the goroutine sends a
    result, the timer fires first, or the goroutine panics. *)
Inductive PollEnd :=
| PollSent (res : option error)
| PollTimeout
| PollPanic (p : PanicKind).

(** One run of the poll: its end, the times (since the start of the
    wait) at which a fetch was issued, and the unread answers. *)
Record Poll := {
  pollEnd : PollEnd;
  issued : list Duration;
  unread : list (Duration * ApiResult);
}.

(** The goroutine of [waitForServerInstance] against the timer of
    [DefaultCreateTimeout].  [now] is the time since the start of the
    wait at which the next fetch is issued.  An answer that is not
    there before the timer fires is never received: the wait ends
    with the timeout (when both are ready at the same instant, Go picks
    either; here the timer wins). *)
Fixpoint poll (status : string) (now : Duration)
         (answers : list (Duration * ApiResult)) : Poll :=
  match answers with
  | [] => {| pollEnd := PollTimeout; issued := [now]; unread := [] |}
  | (took, answer) :: answers' =>
      if DefaultCreateTimeout <=? now + took then
        {| pollEnd := PollTimeout; issued := [now]; unread := answers' |}
      else
        match getServerInstanceOf answer with
        | Panic p => {| pollEnd := PollPanic p; issued := [now]; unread := answers' |}
        | Ok (_, Some err) =>
            {| pollEnd := PollSent (Some err); issued := [now]; unread := answers' |}
        | Ok (None, None) =>
            {| pollEnd := PollSent None; issued := [now]; unread := answers' |}
        | Ok (Some instance, None) =>
            match statusCode instance with
            | Panic p => {| pollEnd := PollPanic p; issued := [now]; unread := answers' |}
            | Ok code =>
                if String.eqb code status then
                  {| pollEnd := PollSent None; issued := [now]; unread := answers' |}
                else
                  let next := poll status (now + took + time.Second * 1) answers' in
                  {| pollEnd := pollEnd next; issued := now :: issued next;
                     unread := unread next |}
            end
        end
  end.

Definition waitTimeoutError (instanceId : string) : error :=
  "TIMEOUT : Wait to server instance  (" +:+ instanceId +:+ ")".

Definition waitForServerInstance (instanceId status : string) : M (option error) :=
  fun w =>
    let p := poll status 0 (getResponses w) in
    let w' := setScript GetServerInstanceList (unread p)
                (logCalls (map (fun _ => CallServer GetServerInstanceList instanceId) (issued p)) w) in
    match pollEnd p with
    | PollSent res => Returned res w'
    | PollTimeout => Returned (Some (waitTimeoutError instanceId)) w'
    | PollPanic k => Panicked k w'
    end.

(** [detachBlockStorageByServerInstanceNo] is declared in a file not
    at hand; its error result is the next entry of [detachResults]. *)
Definition detachBlockStorageByServerInstanceNo (d : ResourceData) (serverInstanceNo : string)
  : M (option error) :=
  fun w =>
    let w := logCalls [CallDetachBlockStorage serverInstanceNo] w in
    match detachResults w with
    | [] => Blocked w
    | r :: more =>
        Returned r
          {| createResponses := createResponses w;
             getResponses := getResponses w;
             stopResponses := stopResponses w;
             terminateResponses := terminateResponses w;
             changeSpecResponses := changeSpecResponses w;
             imageListResponses := imageListResponses w;
             detachResults := more;
             calls := calls w;
             files := files w |}
    end.

(** [d.Timeout(schema.TimeoutDelete)]: the configured timeout, or the
    default that [resourceNcloudServer] declares for Delete. *)
Definition TimeoutDelete (d : ResourceData) : Duration :=
  match schema.timeoutDelete d with
  | Some t => t
  | None => DefaultTimeout
  end.

(** A run of [d.Set] calls whose errors are dropped. *)
Definition setAll (d : ResourceData) (kvs : list (string * Value)) : ResourceData :=
  fold_left (fun d kv => fst (schema.Set_ d (fst kv) (snd kv))) kvs d.

(** A run of [d.Set] calls, each followed by a return on error. *)
Fixpoint setChecked (d : ResourceData) (kvs : list (string * Value))
  : ResourceData * option error :=
  match kvs with
  | [] => (d, None)
  | (k, v) :: more =>
      match schema.Set_ d k v with
      | (d, Some err) => (d, Some err)
      | (d, None) => setChecked d more
      end
  end.

Definition resourceNcloudServerRead (d : ResourceData) : M (ResourceData * option error) :=
  r <- getServerInstance (schema.Id d);;
  match r with
  | (_, Some err) => ret (d, Some err)
  | (None, None) => ret (d, None)
  | (Some instance, None) =>
      let d := setAll d
        [ ("server_instance_no", schema.ofStringPtr (server.ServerInstanceNo instance));
          ("server_name", schema.ofStringPtr (server.ServerName instance));
          ("server_image_product_code", schema.ofStringPtr (server.ServerImageProductCode instance));
          ("server_instance_status_name", schema.ofStringPtr (server.ServerInstanceStatusName instance));
          ("uptime", schema.ofStringPtr (server.Uptime instance));
          ("server_image_name", schema.ofStringPtr (server.ServerImageName instance));
          ("private_ip", schema.ofStringPtr (server.PrivateIp instance));
          ("cpu_count", schema.ofIntPtr (server.CpuCount instance));
          ("memory_size", schema.ofIntPtr (server.MemorySize instance));
          ("base_block_storage_size", schema.ofIntPtr (server.BaseBlockStorageSize instance));
          ("is_fee_charging_monitoring", schema.ofBoolPtr (server.IsFeeChargingMonitoring instance));
          ("public_ip", schema.ofStringPtr (server.PublicIp instance));
          ("private_ip", schema.ofStringPtr (server.PrivateIp instance));
          ("create_date", schema.ofStringPtr (server.CreateDate instance));
          ("uptime", schema.ofStringPtr (server.Uptime instance));
          ("port_forwarding_public_ip", schema.ofStringPtr (server.PortForwardingPublicIp instance));
          ("port_forwarding_external_port", schema.ofIntPtr (server.PortForwardingExternalPort instance));
          ("port_forwarding_internal_port", schema.ofIntPtr (server.PortForwardingInternalPort instance)) ] in
      let d := setAll d [ ("user_data", VString (schema.asString (schema.Get d "user_data"))) ] in
      match setChecked d
        [ ("server_instance_status", flattenCommonCode (server.ServerInstanceStatus instance));
          ("platform_type", flattenCommonCode (server.PlatformType instance));
          ("server_instance_operation", flattenCommonCode (server.ServerInstanceOperation instance));
          ("zone", flattenZone (server.ServerZone instance));
          ("region", flattenRegion (server.ServerRegion instance));
          ("base_block_storage_disk_type", flattenCommonCode (server.BaseBlockStorageDiskType instance));
          ("base_block_storage_disk_detail_type", flattenCommonCode (server.BaseBlockStroageDiskDetailType instance));
          ("internet_line_type", flattenCommonCode (server.InternetLineType instance)) ]
      with
      | (d, Some err) => ret (d, Some err)
      | (d, None) =>
          let d :=
            if negb (Z.of_nat (length (server.InstanceTagList instance)) =? 0)
            then setAll d [ ("load_balancer_rule_list",
                             flattenInstanceTagList (server.InstanceTagList instance)) ]
            else d in
          ret (d, None)
      end
  end.

Definition buildCreateServerInstanceReqParams (d : ResourceData)
  : server.CreateServerInstancesRequest + error :=
  let paramAccessControlGroupConfigurationNoList :=
    match schema.GetOk d "access_control_group_configuration_no_list" with
    | Some param => expandStringInterfaceList param
    | None => []
    end in
  match parseZoneNoParameter d with
  | (_, Some err) => inr err
  | (zoneNo, None) =>
      let getString k := ncloud.String_ (schema.asString (schema.Get d k)) in
      inl {| server.ReqServerImageProductCode := getString "server_image_product_code";
             server.ReqServerProductCode := getString "server_product_code";
             server.ReqMemberServerImageNo := getString "member_server_image_no";
             server.ReqServerName := getString "server_name";
             server.ReqServerDescription := getString "server_description";
             server.ReqLoginKeyName := getString "login_key_name";
             server.ReqInternetLineTypeCode :=
               StringPtrOrNil (schema.GetOk d "internet_line_type_code");
             server.ReqFeeSystemTypeCode := getString "fee_system_type_code";
             server.ReqZoneNo := zoneNo;
             server.ReqAccessControlGroupConfigurationNoList :=
               paramAccessControlGroupConfigurationNoList;
             server.ReqUserData := getString "user_data";
             server.ReqRaidTypeName := getString "raid_type_name";
             server.ReqInstanceTagList :=
               match expandTagListParams (schema.Get d "tag_list") with
               | (instanceTagList, None) => instanceTagList
               | (_, Some _) => []
               end;
             server.ReqIsProtectServerTermination :=
               match schema.GetOk d "is_protect_server_termination" with
               | Some (VBool b) => Some b
               | _ => None
               end |}
  end.

Definition createAllowList : list string :=
  [ApiErrorUnknown; ApiErrorAuthorityParameter; ApiErrorServerObjectInOperation;
   ApiErrorPreviousServersHaveNotBeenEntirelyTerminated].

(** The closure of [resourceNcloudServerCreate], after its call of
    CreateServerInstances. *)
Definition createAttempt (answer : ApiResult) : Duration * option RetryError :=
  let '(resp, err) := answer in
  if (match resp with Some _ => true | None => false end)
     && isRetryableErr (GetCommonResponse resp) createAllowList
  then (0, RetryableError err)
  else (0, NonRetryableError err).

(** [resp.ServerInstanceList[0]] on the response variable that the
    closure assigned. *)
Definition firstServerInstance (resp : option ApiResult) : Try server.ServerInstance :=
  match resp with
  | Some (Some r, _) =>
      match server.ServerInstanceList r with
      | serverInstance :: _ => Ok serverInstance
      | [] => Panic IndexOutOfRange
      end
  | _ => Panic NilDereference
  end.

(** The statements of [resourceNcloudServerCreate] that follow
    [resource.Retry]; [r] holds the error of the retry and the response
    variable. *)
Definition createAfterRetry (d : ResourceData) (r : option error * option ApiResult)
  : M (ResourceData * option error) :=
  match r with
  | (Some err, _) => ret (d, Some err)
  | (None, resp) =>
      serverInstance <- liftTry (firstServerInstance resp);;
      let d := schema.SetId d (ncloud.StringValue (server.ServerInstanceNo serverInstance)) in
      err <- waitForServerInstance
               (ncloud.StringValue (server.ServerInstanceNo serverInstance)) "RUN";;
      match err with
      | Some err => ret (d, Some err)
      | None => resourceNcloudServerRead d
      end
  end.

Definition resourceNcloudServerCreate (d : ResourceData) : M (ResourceData * option error) :=
  match buildCreateServerInstanceReqParams d with
  | inr err => ret (d, Some err)
  | inl reqParams =>
      r <- Retry (10 * time.Minute) CreateServerInstances
                 (ncloud.StringValue (server.ReqServerName reqParams)) createAttempt;;
      createAfterRetry d r
  end.

(** The condition of the stop branch of [resourceNcloudServerDelete]:
    no instance, or a status code other than NSTOP. *)
Definition needsStop (serverInstance : option server.ServerInstance) : Try bool :=
  match serverInstance with
  | None => Ok true
  | Some instance =>
      match statusCode instance with
      | Ok code => Ok (negb (String.eqb code "NSTOP"))
      | Panic p => Panic p
      end
  end.

(** [ncloud.StringValue(serverInstance.ServerInstanceNo)]: the
    instance pointer is dereferenced. *)
Definition serverInstanceNoOf (serverInstance : option server.ServerInstance) : Try string :=
  match serverInstance with
  | Some instance => Ok (ncloud.StringValue (server.ServerInstanceNo instance))
  | None => Panic NilDereference
  end.

(** The statements of [resourceNcloudServerDelete] that follow the
    stop branch. *)
Definition detachAndTerminate (d : ResourceData) : M (ResourceData * option error) :=
  err <- detachBlockStorageByServerInstanceNo d (schema.Id d);;
  match err with
  | Some err => ret (d, Some err)
  | None =>
      err <- terminateServerInstance (schema.Id d);;
      match err with
      | Some err => ret (d, Some err)
      | None => ret (schema.SetId d "", None)
      end
  end.

Definition resourceNcloudServerDelete (d : ResourceData) : M (ResourceData * option error) :=
  r <- getServerInstance (schema.Id d);;
  match r with
  | (_, Some err) => ret (d, Some err)
  | (serverInstance, None) =>
      stop <- liftTry (needsStop serverInstance);;
      if stop : bool then
        err <- stopServerInstance (schema.Id d);;
        match err with
        | Some err => ret (d, Some err)
        | None =>
            no <- liftTry (serverInstanceNoOf serverInstance);;
            err <- waitForServerInstance no "NSTOP";;
            match err with
            | Some err => ret (d, Some err)
            | None => detachAndTerminate d
            end
        end
      else detachAndTerminate d
  end.

Definition changeSpecAllowList : list string :=
  [ApiErrorUnknown; ApiErrorObjectInOperation; ApiErrorObjectInOperation].

(** The closure of [resourceNcloudServerUpdate], after its call of
    ChangeServerInstanceSpec; it sleeps five seconds before it asks
    for a retry. *)
Definition changeSpecAttempt (answer : ApiResult) : Duration * option RetryError :=
  let '(resp, err) := answer in
  if (match resp with Some _ => true | None => false end)
     && isRetryableErr (GetCommonResponse resp) changeSpecAllowList
  then (time.Second * 5, RetryableError err)
  else (0, NonRetryableError err).

(** The statements of [resourceNcloudServerUpdate] that follow
    [resource.Retry]. *)
Definition updateAfterRetry (d : ResourceData) (r : option error * option ApiResult)
  : M (ResourceData * option error) :=
  match fst r with
  | Some err => ret (d, Some err)
  | None => resourceNcloudServerRead d
  end.

Definition resourceNcloudServerUpdate (d : ResourceData) : M (ResourceData * option error) :=
  if schema.HasChange d "server_product_code" then
    r <- Retry (TimeoutDelete d) ChangeServerInstanceSpec
               (schema.asString (schema.Get d "server_instance_no")) changeSpecAttempt;;
    updateAfterRetry d r
  else resourceNcloudServerRead d.

End Server.

(** The world an outcome ends in. *)
Definition worldOf {A} (o : Outcome A) : World :=
  match o with
  | Returned _ w => w
  | Panicked _ w => w
  | Blocked w => w
  end.

(** ** Vocabulary of the statements *)

(** The response carries one of the codes of an allow-list. *)
Definition carries (resp : server.ServerInstancesResponse) (codes : list string) : Prop :=
  exists code, server.ReturnCode resp = Some code /\ In code codes.

(** The name of an image matches the compiled pattern [r]. *)
Definition nameMatches (r : string -> bool) (m : server.MemberServerImage) : bool :=
  r (ncloud.StringValue (server.MemberServerImageName m)).

(** The path that [output_file] names, when it is set to a string that
    is not empty. *)
Definition outputFile (d : ResourceData) : option string :=
  match schema.attrs d !! "output_file" with
  | Some (VString path) => if String.eqb path "" then None else Some path
  | _ => None
  end.


Section Answers.
Context `{Constants}.

(** An answer to GetServerInstanceList whose first instance has the
    status code [status]. *)
Definition statusIs (status : string) (answer : ApiResult) : Prop :=
  exists instance, getServerInstanceOf answer = Ok (Some instance, None)
                   /\ statusCode instance = Ok status.

(** An answer without error and without instance. *)
Definition noInstance (answer : ApiResult) : Prop :=
  getServerInstanceOf answer = Ok (None, None).

(** An answer with an instance in a status other than [status]: the
    poll goes on. *)
Definition pendingb (status : string) (answer : ApiResult) : bool :=
  match getServerInstanceOf answer with
  | Ok (Some instance, None) =>
      match statusCode instance with
      | Ok code => negb (String.eqb code status)
      | Panic _ => false
      end
  | _ => false
  end.

(** The time at which the fetch after the answers [pre] is issued,
    when the first of them is issued at [now]: each answer takes its
    time and is followed by one second of sleep. *)
Fixpoint after (now : Duration) (pre : list (Duration * ApiResult)) : Duration :=
  match pre with
  | [] => now
  | (took, _) :: pre' => after (now + took + time.Second * 1) pre'
  end.

(** The times at which the fetches answered by [pre] are issued. *)
Fixpoint issueTimes (now : Duration) (pre : list (Duration * ApiResult)) : list Duration :=
  match pre with
  | [] => []
  | (took, _) :: pre' => now :: issueTimes (now + took + time.Second * 1) pre'
  end.

(** All answers of [pre] are there before the timer fires and leave
    the poll going. *)
Fixpoint allPending (status : string) (now : Duration)
         (pre : list (Duration * ApiResult)) : bool :=
  match pre with
  | [] => true
  | (took, answer) :: pre' =>
      (now + took <? DefaultCreateTimeout) && pendingb status answer
      && allPending status (now + took + time.Second * 1) pre'
  end.

(** Fetches one second apart: the first at the start of the wait, each
    later one a second after the answer to the one before. *)
Definition everySecond (answers : list (Duration * ApiResult)) (times : list Duration) : Prop :=
  times !! 0%nat = Some 0 /\
  forall (i : nat) (t t' : Duration),
    times !! i = Some t -> times !! S i = Some t' ->
    exists took answer, answers !! i = Some (took, answer)
                        /\ t' = t + took + time.Second * 1.

End Answers.

(** ** Values for running the definitions *)

Definition sampleConstants : Constants :=
  {| ApiErrorUnknown := "1300";
     ApiErrorAuthorityParameter := "800";
     ApiErrorServerObjectInOperation := "23006";
     ApiErrorServerObjectInOperation2 := "25033";
     ApiErrorPreviousServersHaveNotBeenEntirelyTerminated := "23003";
     ApiErrorObjectInOperation := "25013";
     DefaultCreateTimeout := 1 * time.Hour;
     DefaultTimeout := 5 * time.Minute |}.

Definition sampleHelpers : Helpers :=
  {| parseRegionNoParameter := fun _ => (None, None);
     parseZoneNoParameter := fun _ => (None, None);
     dataResourceIdHash := fun ids => GoStrings.Join ids ",";
     flattenMemberServerImages :=
       fun l => VList (map (fun m => schema.ofStringPtr (server.MemberServerImageNo m)) l);
     flattenCommonCode :=
       fun c => match c with
                | Some c => schema.ofStringPtr (server.Code c)
                | None => VNil
                end;
     flattenZone := fun _ => VNil;
     flattenRegion := fun _ => VNil;
     flattenInstanceTagList := fun _ => VNil;
     expandStringInterfaceList := fun _ => [];
     expandTagListParams := fun _ => ([], None);
     StringPtrOrNil :=
       fun v => match v with Some v => Some (schema.asString v) | None => None end |}.

(** Patterns without operators: a literal matches where it occurs. *)
Definition sampleRegexp : Regexp :=
  {| regexpCompile := fun pattern => Some (fun s => GoStrings.Contains s pattern) |}.

Definition sampleSchema : Schema := {| schema.setError := fun _ _ => None |}.

Definition sampleWait : Wait :=
  {| resource.timeoutError := fun _ => "timeout while waiting for state to become 'success'";
     resource.retryWait :=
       fun n => Z.min (500 * time.Millisecond * 2 ^ Z.of_nat n) (10 * time.Second) |}.

Definition emptyWorld : World :=
  {| createResponses := []; getResponses := []; stopResponses := [];
     terminateResponses := []; changeSpecResponses := []; imageListResponses := [];
     detachResults := []; calls := []; files := [] |}.

Definition worldWithGets (answers : list (Duration * ApiResult)) : World :=
  {| createResponses := []; getResponses := answers; stopResponses := [];
     terminateResponses := []; changeSpecResponses := []; imageListResponses := [];
     detachResults := []; calls := []; files := [] |}.

Definition emptyData : ResourceData :=
  {| schema.Id := ""; schema.attrs := ∅; schema.changed := ∅; schema.timeoutDelete := None |}.

Definition sampleImage (no name : string) : server.MemberServerImage :=
  {| server.MemberServerImageNo := Some no;
     server.MemberServerImageName := Some name;
     server.MemberServerImageDescription := None;
     server.OriginalServerInstanceNo := None;
     server.MemberServerImageStatus := None |}.

Definition sampleInstance (no status : string) : server.ServerInstance :=
  {| server.ServerInstanceNo := Some no;
     server.ServerName := Some "web";
     server.ServerImageProductCode := None;
     server.ServerInstanceStatusName := None;
     server.Uptime := None;
     server.ServerImageName := None;
     server.PrivateIp := None;
     server.CpuCount := None;
     server.MemorySize := None;
     server.BaseBlockStorageSize := None;
     server.IsFeeChargingMonitoring := None;
     server.PublicIp := None;
     server.CreateDate := None;
     server.PortForwardingPublicIp := None;
     server.PortForwardingExternalPort := None;
     server.PortForwardingInternalPort := None;
     server.ServerInstanceStatus := Some {| server.Code := Some status; server.CodeName := None |};
     server.PlatformType := None;
     server.ServerInstanceOperation := None;
     server.ServerZone := None;
     server.ServerRegion := None;
     server.BaseBlockStorageDiskType := None;
     server.BaseBlockStroageDiskDetailType := None;
     server.InternetLineType := None;
     server.InstanceTagList := [] |}.

(** An answer without error that lists [instances]. *)
Definition answerOk (instances : list server.ServerInstance) : ApiResult :=
  (Some {| server.ReturnCode := Some "0"; server.ReturnMessage := Some "success";
           server.ServerInstanceList := instances |}, None).

(** An answer with the error [err] and the return code [code]. *)
Definition answerError (code : string) (err : error) : ApiResult :=
  (Some {| server.ReturnCode := Some code; server.ReturnMessage := Some err;
           server.ServerInstanceList := [] |}, Some err).

Definition imagesAnswer (images : list server.MemberServerImage)
  : server.Result server.GetMemberServerImageListResponse :=
  (Some {| server.ImagesReturnCode := Some "0"; server.ImagesReturnMessage := Some "success";
           server.MemberServerImageList := images |}, None).

Definition withAttrs (kvs : list (string * Value)) (id : string) : ResourceData :=
  {| schema.Id := id; schema.attrs := list_to_map kvs; schema.changed := ∅;
     schema.timeoutDelete := None |}.

(** ** validators.go, the remaining validators *)

(** The dynamic values ([interface{}]) that the type switches of the
    validators tell apart: a string, an int, a slice of strings, a
    slice of ints, anything else. *)
Inductive Dyn :=
| DString (s : string)
| DInt (n : Z)
| DStrings (l : list string)
| DInts (l : list Z)
| DOther.

(** [strconv.Atoi]: the integer a string spells, or nothing (an
    error). *)
Class Strconv := { strconvAtoi : string -> option Z }.

Section MoreValidators.
Context `{Fmt} `{Strconv}.

Definition mustBeIntError (k : string) : error := strconvQuote k +:+ " must be int".

Definition lowerThanError (k : string) (min value : Z) : error :=
  strconvQuote k +:+ " cannot be lower than " +:+ strconvItoa min +:+ ": " +:+ strconvItoa value.

Definition higherThanError (k : string) (max value : Z) : error :=
  strconvQuote k +:+ " cannot be higher than " +:+ strconvItoa max +:+ ": " +:+ strconvItoa value.

(** The type switch of [validateIntegerInRange]: a string is parsed, an
    int is taken as it is, any other value is not an int. *)
Definition intOfDyn (v : Dyn) : option Z :=
  match v with
  | DString s => strconvAtoi s
  | DInt n => Some n
  | _ => None
  end.

Definition validateIntegerInRange (min max : Z) (v : Dyn) (k : string)
  : list string * list error :=
  match intOfDyn v with
  | None => ([], [mustBeIntError k])
  | Some value =>
      let errors : list error := [] in
      let errors :=
        if value <? min then errors ++ [lowerThanError k min value] else errors in
      let errors :=
        if value >? max then errors ++ [higherThanError k max value] else errors in
      ([], errors)
  end.

(** The loop of [validateIncludeValues]: it returns at the first value
    that is not included. *)
Fixpoint firstNotIncluded (includeValues values : list string) (k : string) : list error :=
  match values with
  | [] => []
  | value :: more =>
      match validateIncludes includeValues value k with
      | Some err => [err]
      | None => firstNotIncluded includeValues more k
      end
  end.

(** The type switch of [validateIncludeValues]: a string is one value,
    a slice of strings is its elements, any other value gives none. *)
Definition stringsOfDyn (v : Dyn) : list string :=
  match v with
  | DString s => [s]
  | DStrings l => l
  | _ => []
  end.

Definition validateIncludeValues (includeValues : list string) (v : Dyn) (k : string)
  : list string * list error :=
  ([], firstNotIncluded includeValues (stringsOfDyn v) k).

(** The loop of [validateIntIncludes]: it returns nil at the first
    element equal to [v] and collects the decimal form of the elements
    passed before. *)
Fixpoint intIncludesLoop (includeValues : list Z) (v : Z)
         (includeValuesString : list string) (k : string) : option error :=
  match includeValues with
  | [] => Some (k +:+ " should be " +:+ GoStrings.Join includeValuesString " or ")
  | included :: more =>
      if v =? included then None
      else intIncludesLoop more v (includeValuesString ++ [strconvItoa included]) k
  end.

Definition validateIntIncludes (includeValues : list Z) (v : Z) (k : string) : option error :=
  intIncludesLoop includeValues v [] k.

Fixpoint firstIntNotIncluded (includeValues values : list Z) (k : string) : list error :=
  match values with
  | [] => []
  | value :: more =>
      match validateIntIncludes includeValues value k with
      | Some err => [err]
      | None => firstIntNotIncluded includeValues more k
      end
  end.

Definition intsOfDyn (v : Dyn) : list Z :=
  match v with
  | DInt n => [n]
  | DInts l => l
  | _ => []
  end.

Definition validateIncludeIntValues (includeValues : list Z) (v : Dyn) (k : string)
  : list string * list error :=
  ([], firstIntNotIncluded includeValues (intsOfDyn v) k).

End MoreValidators.

(** Decimal numerals without sign, for running the definitions. *)
Definition sampleStrconv : Strconv :=
  {| strconvAtoi := fun s =>
       match s with
       | "0" => Some 0 | "1" => Some 1 | "2" => Some 2 | "3" => Some 3
       | "7" => Some 7 | "10" => Some 10 | "42" => Some 42 | "100" => Some 100
       | _ => None
       end |}.

(** ** The server resource, the remaining helper *)

Definition getServerZoneNo (serverInstanceNo : string) : M (string * option error) :=
  r <- getServerInstance serverInstanceNo;;
  match r with
  | (_, Some err) => ret ("", Some err)
  | (None, None) => ret ("", None)
  | (Some serverInstance, None) =>
      match server.ServerZone serverInstance with
      | None => ret ("", None)
      | Some zone =>
          match server.ZoneNo zone with
          | Some zoneNo => ret (zoneNo, None)
          | None => panic NilDereference
          end
      end
  end.

(** ** Vocabulary of the further statements *)


(** The image numbers of a list of images, in order. *)
Definition imageNumbers (images : list server.MemberServerImage) : list string :=
  map (fun m => ncloud.StringValue (server.MemberServerImageNo m)) images.

(** An answer to a retried call that makes the closure ask for a
    retry: an error whose response carries a code of [allow]. *)
Definition retryable (allow : list string) (answer : Duration * ApiResult) : Prop :=
  exists r err, snd answer = (Some r, Some err) /\ carries r allow.

(** ** Vocabulary of the statements on whole runs *)



(** The time at which the call after the answers [pre] is made, when
    the attempt numbered [n] is made at [elapsed] and the closure
    pauses for [pause] before it asks for a retry: each answer of [pre]
    adds the time its call took, the pause of the closure and the wait
    of the library. *)
Fixpoint elapsedAfter `{Wait} (pause : Duration) (n : nat) (elapsed : Duration)
         (pre : list (Duration * ApiResult)) : Duration :=
  match pre with
  | [] => elapsed
  | (took, _) :: pre' =>
      elapsedAfter pause (S n) (elapsed + took + pause + resource.retryWait n) pre'
  end.

(** Every answer of [pre] is there before [timeout] and is an error
    whose response carries a code of [allow]. *)
Fixpoint allRetried `{Wait} (allow : list string) (timeout pause : Duration)
         (n : nat) (elapsed : Duration) (pre : list (Duration * ApiResult)) : Prop :=
  match pre with
  | [] => True
  | (took, answer) :: pre' =>
      elapsed + took < timeout
      /\ retryable allow (took, answer)
      /\ allRetried allow timeout pause (S n)
                    (elapsed + took + pause + resource.retryWait n) pre'
  end.






(* ===================================================================== *)
(** * Part II: properties                                                 *)
(* ===================================================================== *)

Section ValidatorFacts.
Context `{Fmt}.

Lemma matchClassPlus_existsChar class s :
  matchClassPlus class s = existsChar (inClass class) s.
Proof.
  induction s as [|c s IH]; simpl; [reflexivity|].
  rewrite IH. destruct (inClass class c); reflexivity.
Qed.

(** The class of the compiled pattern holds exactly the bytes listed
    in [isServerNameClassChar]. *)
Lemma inClass_serverNameClass c :
  inClass serverNameClass c = isServerNameClassChar c.
Proof. destruct c as [[] [] [] [] [] [] [] []]; vm_compute; reflexivity. Qed.

Lemma hyphen_not_in_serverNameClass : inClass serverNameClass "-"%char = false.
Proof. reflexivity. Qed.

Lemma serverNamePattern_MatchString_spec value :
  serverNamePattern_MatchString value = existsChar isServerNameClassChar value.
Proof.
  unfold serverNamePattern_MatchString. rewrite matchClassPlus_existsChar.
  induction value as [|c s IH]; cbn [existsChar]; [reflexivity|].
  now rewrite IH, inClass_serverNameClass.
Qed.

Lemma len_String c s : len (String c s) = 1 + len s.
Proof. unfold len. simpl String.length. lia. Qed.

Lemma len_nonneg s : 0 <= len s.
Proof. unfold len. lia. Qed.

(** [LastIndex] of a hyphen is the last offset exactly when the last
    byte is a hyphen. *)
Lemma prefix_hyphen c s : String.prefix "-" (String c s) = Ascii.eqb c "-".
Proof.
  cbn [String.prefix]. destruct (ascii_dec "-" c) as [<-|Hne].
  - now destruct s.
  - symmetry. apply Ascii.eqb_neq. congruence.
Qed.

Lemma lastIndexFrom_hyphen_last c s i best :
  best < i ->
  (GoStrings.lastIndexFrom "-" (String c s) i best =? i + len (String c s) - 1)
  = endsInHyphen (String c s).
Proof.
  revert c i best. induction s as [|c' s IH]; intros c i best Hlt.
  - cbn [GoStrings.lastIndexFrom]. rewrite prefix_hyphen, len_String.
    change (String.prefix "-" "") with false. change (len "") with 0.
    unfold endsInHyphen. cbn [lastChar].
    destruct (Ascii.eqb c "-").
    + apply Z.eqb_eq. lia.
    + apply Z.eqb_neq. lia.
  - rewrite len_String.
    change (endsInHyphen (String c (String c' s))) with (endsInHyphen (String c' s)).
    rewrite <- (IH c' (i + 1) (if String.prefix "-" (String c (String c' s)) then i else best)).
    + cbn [GoStrings.lastIndexFrom]. f_equal. lia.
    + destruct (String.prefix _ _); lia.
Qed.

Lemma LastIndex_hyphen_last value :
  value <> "" ->
  (GoStrings.LastIndex value "-" =? len value - 1) = endsInHyphen value.
Proof.
  destruct value as [|c s]; [congruence|]. intros _.
  unfold GoStrings.LastIndex.
  rewrite <- (lastIndexFrom_hyphen_last c s 0 (-1)) by lia.
  f_equal.
Qed.

(** The validator reports nothing exactly on the names of 3 to 30
    bytes that hold a byte of the class and do not end in a hyphen. *)
Lemma validateServerName_no_errors_iff value k :
  snd (validateServerName value k) = [] <->
  3 <= len value <= 30 /\ endsInHyphen value = false /\
  existsChar isServerNameClassChar value = true.
Proof.
  unfold validateServerName. cbv zeta. simpl snd.
  rewrite serverNamePattern_MatchString_spec.
  destruct (Z.ltb_spec (len value) 3) as [Hlo|Hlo]; simpl orb.
  { split; [|lia].
    destruct (negb _ || _); simpl; discriminate. }
  destruct (Z.gtb_spec (len value) 30) as [Hhi|Hhi].
  { split; [|lia].
    destruct (negb _ || _); simpl; discriminate. }
  rewrite LastIndex_hyphen_last
    by (intros ->; change (len "") with 0 in Hlo; lia).
  destruct (existsChar isServerNameClassChar value), (endsInHyphen value);
    simpl; split; try discriminate; try tauto; intuition (try discriminate; lia).
Qed.

End ValidatorFacts.

(** C10 as it is worded fails: a name of three bytes that holds a hyphen,
    does not end in one and has no byte of the class is reported. *)
Lemma validateServerName_hyphen_only_rejected :
  3 <= len "-.." <= 30 /\ endsInHyphen "-.." = false /\
  existsChar isAlnumHyphenStar "-.." = true /\
  snd (@validateServerName plainFmt "-.." "server_name") = [serverNamePatternError].
Proof. vm_compute. intuition congruence. Qed.

(** C10, amended: every value of 3 to 30 bytes that does not end in a
    hyphen and holds at least one byte of the class of the pattern (a
    letter, a digit, a star, a parenthesis, or one of the punctuation
    bytes from the backslash to the vertical bar; not the hyphen) is
    accepted without errors or warnings by [validateServerName],
    whatever its other bytes are;  the validator made by
    [validateStringLengthInRange 3 30] plays no part in the result. *)
Theorem validateServerName_accepts `{Fmt} (value k : string) :
  3 <= len value <= 30 ->
  endsInHyphen value = false ->
  existsChar isServerNameClassChar value = true ->
  validateServerName value k = ([], []).
Proof.
  intros Hlen Hend Hcls.
  assert (Hnil : snd (validateServerName value k) = [])
    by (apply validateServerName_no_errors_iff; auto).
  change (validateServerName value k)
    with (@nil string, snd (validateServerName value k)).
  now rewrite Hnil.
Qed.

Lemma validateServerName_accepts_witness :
  3 <= len "web-01!" <= 30 /\ endsInHyphen "web-01!" = false /\
  existsChar isServerNameClassChar "web-01!" = true /\
  @validateServerName plainFmt "web-01!" "server_name" = ([], []).
Proof.
  assert (Hlen : 3 <= len "web-01!" <= 30) by (vm_compute; intuition congruence).
  split; [exact Hlen|]. split; [reflexivity|]. split; [reflexivity|].
  apply (@validateServerName_accepts plainFmt "web-01!" "server_name");
    [exact Hlen | reflexivity | reflexivity].
Defined.

(** ** The member server images data source *)

Section MemberServerImagesFacts.
Context `{Helpers} `{Regexp} `{Schema}.

(** The append loop, started from any list, adds the matching images
    in their order. *)
Lemma filterByName_from r all acc :
  fold_left
    (fun filtered m => if nameMatches r m then filtered ++ [m] else filtered)
    all acc
  = acc ++ List.filter (nameMatches r) all.
Proof.
  revert acc. induction all as [|m all IH]; intros acc; cbn [fold_left List.filter].
  - now rewrite app_nil_r.
  - rewrite IH. destruct (nameMatches r m); [|reflexivity].
    now rewrite <- app_assoc.
Qed.

Lemma filterByName_filter r all :
  filterByName r all = List.filter (nameMatches r) all.
Proof. unfold filterByName. apply (filterByName_from r all []). Qed.

Lemma filter_sublist {A} (p : A -> bool) (l : list A) : sublist (List.filter p l) l.
Proof.
  induction l as [|x l IH]; cbn [List.filter]; [constructor|].
  destruct (p x); now constructor.
Qed.

Lemma writeToFile_files path v w u w' :
  writeToFile path v w = Returned u w' ->
  files w' = files w ++ [(path, v)] /\ calls w' = calls w.
Proof. unfold writeToFile. intros [= _ <-]. now split. Qed.

Lemma GetOk_Set_ne d k k' v d' :
  k <> k' -> schema.Set_ d k v = (d', None) -> schema.GetOk d' k' = schema.GetOk d k'.
Proof.
  unfold schema.Set_, schema.GetOk. intros Hne.
  destruct (schema.setError k v); [discriminate|].
  intros [= <-]. cbn [schema.attrs]. now rewrite lookup_insert_ne.
Qed.

Lemma Set_error_unchanged d k v d' err :
  schema.Set_ d k v = (d', Some err) -> d' = d.
Proof.
  unfold schema.Set_. destruct (schema.setError k v); now intros [= <-].
Qed.

End MemberServerImagesFacts.

(** C5: the filtered list of the member server images read is, when
    [member_server_image_name_regex] is set, exactly the images of the
    vendor's list whose name matches the pattern, in the vendor's order
    (a subsequence of that list), and the whole list when the attribute
    is not set. *)
Theorem filteredMemberServerImages_spec `{Regexp}
        (d : ResourceData) (all : list server.MemberServerImage) :
  (forall nameRegex r,
      schema.GetOk d "member_server_image_name_regex" = Some nameRegex ->
      regexpCompile (schema.asString nameRegex) = Some r ->
      filteredMemberServerImages d all = Ok (List.filter (nameMatches r) all)
      /\ sublist (List.filter (nameMatches r) all) all
      /\ (forall m, In m (List.filter (nameMatches r) all) <->
                    In m all /\ r (ncloud.StringValue (server.MemberServerImageName m)) = true))
  /\ (schema.GetOk d "member_server_image_name_regex" = None ->
      filteredMemberServerImages d all = Ok all).
Proof.
  split.
  - intros nameRegex r Hset Hcomp. unfold filteredMemberServerImages.
    rewrite Hset, Hcomp, filterByName_filter.
    split; [reflexivity|]. split; [apply filter_sublist|].
    intros m. apply filter_In.
  - intros Hunset. unfold filteredMemberServerImages. now rewrite Hunset.
Qed.

Lemma filteredMemberServerImages_spec_witness :
  let d := withAttrs [("member_server_image_name_regex", VString "web")] "" in
  let all := [sampleImage "1" "web-a"; sampleImage "2" "db"; sampleImage "3" "my-web"] in
  @filteredMemberServerImages sampleRegexp d all
  = Ok [sampleImage "1" "web-a"; sampleImage "3" "my-web"]
  /\ @filteredMemberServerImages sampleRegexp emptyData all = Ok all.
Proof.
  intros d all.
  pose proof (@filteredMemberServerImages_spec sampleRegexp d all) as [Hset _].
  pose proof (@filteredMemberServerImages_spec sampleRegexp emptyData all) as [_ Hunset].
  split.
  - destruct (Hset (VString "web") (fun s => GoStrings.Contains s "web")) as [-> _];
      reflexivity.
  - apply Hunset. reflexivity.
Defined.

Section ReadFacts.
Context `{Helpers} `{Regexp} `{Schema}.

Lemma GetOk_output_file d :
  match schema.GetOk d "output_file" with
  | Some output =>
      if negb (String.eqb (schema.asString output) "")
      then Some (schema.asString output) else None
  | None => None
  end = outputFile d.
Proof.
  unfold schema.GetOk, outputFile.
  destruct (schema.attrs d !! "output_file") as [[| s | z | b | l | m]|];
    cbn [schema.isZero schema.asString]; try reflexivity.
  - destruct (String.eqb s "") eqn:E; cbn [schema.asString negb]; now rewrite ?E.
  - destruct (z =? 0); reflexivity.
  - destruct b; reflexivity.
  - destruct l; reflexivity.
  - destruct m; reflexivity.
Qed.

(** What [memberServerImagesAttributes] writes when it returns without
    error. *)
Lemma memberServerImagesAttributes_files d images w d' w' :
  memberServerImagesAttributes d images w = Returned (d', None) w' ->
  files w' = files w ++
    match outputFile d with
    | Some path => [(path, schema.Get d' "member_server_images")]
    | None => []
    end.
Proof.
  unfold memberServerImagesAttributes, bind.
  destruct (collectIds [] images) as [ids|p]; cbn [liftTry ret panic]; [|discriminate].
  destruct (schema.Set_ _ _ _) as [d2 [err|]] eqn:Hset; [discriminate|].
  pose proof (GetOk_Set_ne _ "member_server_images" "output_file" _ _
                ltac:(discriminate) Hset) as Hok.
  change (schema.GetOk (schema.SetId d (dataResourceIdHash ids)) "output_file")
    with (schema.GetOk d "output_file") in Hok.
  rewrite <- GetOk_output_file, <- Hok.
  destruct (schema.GetOk d2 "output_file") as [output|].
  - destruct (negb (String.eqb (schema.asString output) "")).
    + unfold writeToFile. intros [= <- <-]. reflexivity.
    + intros [= <- <-]. now rewrite app_nil_r.
  - intros [= <- <-]. now rewrite app_nil_r.
Qed.

(** The call of the image list leaves the files alone. *)
Lemma callGetMemberServerImageList_files w answer w' :
  callGetMemberServerImageList w = Returned answer w' ->
  files w' = files w /\ calls w' = calls w ++ [CallGetMemberServerImageList]
  /\ exists more, imageListResponses w = answer :: more /\ imageListResponses w' = more.
Proof.
  unfold callGetMemberServerImageList. cbn.
  destruct (imageListResponses w) as [|a more]; [discriminate|].
  intros [= <- <-]. cbn. eauto.
Qed.

End ReadFacts.

(** C4: when the list of images left by the name filter is empty (fewer
    than one element), the read of the member server images data source
    fails with the error "no results. please change search criteria and
    try again", and the resource data is returned as it was: no
    attribute and no id is set, and no file is written. *)
Theorem dataSourceNcloudMemberServerImagesRead_no_results
        `{Helpers} `{Regexp} `{Schema}
        (d : ResourceData) (w : World) regionNo resp more filtered :
  parseRegionNoParameter d = (regionNo, None) ->
  imageListResponses w = (Some resp, None) :: more ->
  filteredMemberServerImages d (server.MemberServerImageList resp) = Ok filtered ->
  (length filtered < 1)%nat ->
  exists w',
    dataSourceNcloudMemberServerImagesRead d w
    = Returned (d, Some "no results. please change search criteria and try again") w'
    /\ files w' = files w
    /\ calls w' = calls w ++ [CallGetMemberServerImageList].
Proof.
  intros Hregion Hscript Hfiltered Hlen.
  unfold dataSourceNcloudMemberServerImagesRead. rewrite Hregion.
  unfold bind, callGetMemberServerImageList. cbn [logCalls imageListResponses].
  rewrite Hscript, Hfiltered. cbn [liftTry ret].
  destruct (Z.ltb_spec (Z.of_nat (length filtered)) 1) as [_|Hge]; [|lia].
  eexists. split; [reflexivity|]. cbn. split; reflexivity.
Qed.

Lemma dataSourceNcloudMemberServerImagesRead_no_results_witness :
  let d := withAttrs [("member_server_image_name_regex", VString "web")] "" in
  let w := {| createResponses := []; getResponses := []; stopResponses := [];
              terminateResponses := []; changeSpecResponses := [];
              imageListResponses := [imagesAnswer [sampleImage "2" "db"]];
              detachResults := []; calls := []; files := [] |} in
  exists w',
    @dataSourceNcloudMemberServerImagesRead sampleHelpers sampleRegexp sampleSchema d w
    = Returned (d, Some "no results. please change search criteria and try again") w'
    /\ files w' = files w
    /\ calls w' = calls w ++ [CallGetMemberServerImageList].
Proof.
  intros d w.
  apply (@dataSourceNcloudMemberServerImagesRead_no_results
           sampleHelpers sampleRegexp sampleSchema d w None
           {| server.ImagesReturnCode := Some "0";
              server.ImagesReturnMessage := Some "success";
              server.MemberServerImageList := [sampleImage "2" "db"] |} [] []);
    [reflexivity | reflexivity | reflexivity | cbn; lia].
Defined.

(** C7: after a read of the member server images data source that
    returns without error, the value of [member_server_images] has been
    written to the file that [output_file] names if and only if
    [output_file] is set to a string that is not empty; otherwise no
    file is written. *)
Theorem dataSourceNcloudMemberServerImagesRead_output_file
        `{Helpers} `{Regexp} `{Schema}
        (d d' : ResourceData) (w w' : World) :
  dataSourceNcloudMemberServerImagesRead d w = Returned (d', None) w' ->
  (forall path,
      schema.attrs d !! "output_file" = Some (VString path) -> path <> "" ->
      files w' = files w ++ [(path, schema.Get d' "member_server_images")])
  /\ ((forall path, schema.attrs d !! "output_file" = Some (VString path) -> path = "") ->
      files w' = files w).
Proof.
  intros Hread.
  assert (Hfiles : files w' = files w ++
            match outputFile d with
            | Some path => [(path, schema.Get d' "member_server_images")]
            | None => []
            end).
  { revert Hread. unfold dataSourceNcloudMemberServerImagesRead.
    destruct (parseRegionNoParameter d) as [regionNo [err|]]; [discriminate|].
    unfold bind at 1.
    destruct (callGetMemberServerImageList w) as [answer w1| |] eqn:Hcall; try discriminate.
    apply callGetMemberServerImageList_files in Hcall as (Hf & _ & _).
    destruct answer as [[resp|] [err|]]; try discriminate.
    unfold bind.
    destruct (filteredMemberServerImages d _) as [filtered|p]; cbn [liftTry ret panic];
      [|discriminate].
    destruct (Z.of_nat (length filtered) <? 1); [discriminate|].
    intros Hattr. apply memberServerImagesAttributes_files in Hattr.
    now rewrite Hattr, Hf. }
  split.
  - intros path Hset Hne. rewrite Hfiles. unfold outputFile. rewrite Hset.
    now rewrite (proj2 (String.eqb_neq path "") Hne).
  - intros Hnone. rewrite Hfiles. unfold outputFile.
    destruct (schema.attrs d !! "output_file") as [[| path | | | |]|];
      try (now rewrite app_nil_r).
    rewrite (Hnone path eq_refl). cbn. now rewrite app_nil_r.
Qed.

Lemma dataSourceNcloudMemberServerImagesRead_output_file_witness :
  let d := withAttrs [("output_file", VString "images.json")] "" in
  let w := {| createResponses := []; getResponses := []; stopResponses := [];
              terminateResponses := []; changeSpecResponses := [];
              imageListResponses := [imagesAnswer [sampleImage "2" "db"]];
              detachResults := []; calls := []; files := [] |} in
  exists d' w',
    @dataSourceNcloudMemberServerImagesRead sampleHelpers sampleRegexp sampleSchema d w
    = Returned (d', None) w'
    /\ files w' = [("images.json", VList [VString "2"])].
Proof.
  intros d w.
  destruct (@dataSourceNcloudMemberServerImagesRead sampleHelpers sampleRegexp sampleSchema d w)
    as [[d' [err|]] w'| |] eqn:Hread; try (vm_compute in Hread; discriminate).
  exists d', w'. split; [reflexivity|].
  destruct (@dataSourceNcloudMemberServerImagesRead_output_file
              sampleHelpers sampleRegexp sampleSchema d d' w w' Hread) as [Hwrite _].
  rewrite (Hwrite "images.json" eq_refl ltac:(discriminate)).
  vm_compute in Hread. injection Hread as <- <-. reflexivity.
Defined.

(** ** The poll of [waitForServerInstance] *)

Section PollFacts.
Context `{Constants}.

Lemma pendingb_true status answer :
  pendingb status answer = true ->
  exists instance code,
    getServerInstanceOf answer = Ok (Some instance, None)
    /\ statusCode instance = Ok code /\ String.eqb code status = false.
Proof.
  unfold pendingb.
  destruct (getServerInstanceOf answer) as [[[instance|] [err|]]|p]; try discriminate.
  destruct (statusCode instance) as [code|p] eqn:Hcode; try discriminate.
  intros Hneg. exists instance, code.
  split; [reflexivity|]. split; [exact Hcode|]. now apply negb_true_iff.
Qed.

(** While the answers leave the poll going, it reads on: the poll over
    [pre ++ rest] is the poll over [rest], started later. *)
Lemma poll_pending_prefix status pre :
  forall now rest,
    allPending status now pre = true ->
    poll status now (pre ++ rest)
    = {| pollEnd := pollEnd (poll status (after now pre) rest);
         issued := issueTimes now pre ++ issued (poll status (after now pre) rest);
         unread := unread (poll status (after now pre) rest) |}.
Proof.
  induction pre as [|[took answer] pre IH]; intros now rest Hpre.
  - cbn [app after issueTimes]. now destruct (poll status now rest).
  - cbn [allPending] in Hpre.
    apply andb_true_iff in Hpre as [Hpre Hrest].
    apply andb_true_iff in Hpre as [Htime Hpending].
    apply Z.ltb_lt in Htime.
    destruct (pendingb_true _ _ Hpending) as (instance & code & Hget & Hcode & Hne).
    cbn [app poll after issueTimes].
    destruct (Z.leb_spec DefaultCreateTimeout (now + took)) as [Hle|_]; [lia|].
    rewrite Hget, Hcode, Hne. cbn [pollEnd issued unread].
    now rewrite (IH _ rest Hrest).
Qed.

(** A poll that ends with success has read answers that left it going
    and then, before the timer fired, an answer without instance or
    with an instance in the awaited status. *)
Lemma poll_sent_nil status answers :
  forall now,
    pollEnd (poll status now answers) = PollSent None ->
    exists pre took answer,
      answers = pre ++ (took, answer) :: unread (poll status now answers)
      /\ allPending status now pre = true
      /\ after now pre + took < DefaultCreateTimeout
      /\ (noInstance answer \/ statusIs status answer).
Proof.
  induction answers as [|[took answer] answers IH]; intros now; cbn [poll].
  - discriminate.
  - destruct (Z.leb_spec DefaultCreateTimeout (now + took)) as [Hle|Hlt];
      cbn [pollEnd unread]; [discriminate|].
    destruct (getServerInstanceOf answer) as [[[instance|] [err|]]|p] eqn:Hget;
      cbn [pollEnd unread]; try discriminate.
    + destruct (statusCode instance) as [code|p] eqn:Hcode;
        cbn [pollEnd unread]; try discriminate.
      destruct (String.eqb code status) eqn:Heq; cbn [pollEnd unread].
      * intros _. exists [], took, answer. cbn [app allPending after].
        repeat split; [lia|]. right. exists instance. split; [exact Hget|].
        apply String.eqb_eq in Heq. now subst.
      * intros Hend. destruct (IH _ Hend) as (pre & took' & answer' & Heqn & Hpre & Ht & Hlast).
        exists ((took, answer) :: pre), took', answer'.
        cbn [app allPending after]. rewrite <- Heqn.
        repeat split; [|exact Ht|exact Hlast].
        rewrite Hpre, andb_true_r. apply andb_true_iff. split; [now apply Z.ltb_lt|].
        unfold pendingb. now rewrite Hget, Hcode, Heq.
    + intros _. exists [], took, answer. cbn [app allPending after].
      repeat split; [lia|]. now left.
Qed.

Lemma poll_issued_first status now answers :
  exists more, issued (poll status now answers) = now :: more.
Proof.
  destruct answers as [|[took answer] answers]; cbn [poll]; [now eexists|].
  destruct (DefaultCreateTimeout <=? now + took); [now eexists|].
  destruct (getServerInstanceOf answer) as [[[instance|] [err|]]|p]; try now eexists.
  destruct (statusCode instance) as [code|p]; try now eexists.
  destruct (String.eqb code status); now eexists.
Qed.

(** Consecutive fetches: each is issued one second after the answer to
    the one before. *)
Lemma poll_issued_step status answers :
  forall now (i : nat) (t t' : Duration),
    issued (poll status now answers) !! i = Some t ->
    issued (poll status now answers) !! S i = Some t' ->
    exists took answer, answers !! i = Some (took, answer)
                        /\ t' = t + took + time.Second * 1.
Proof.
  induction answers as [|[took answer] answers IH]; intros now i t t'; cbn [poll].
  - cbn [issued]. destruct i; discriminate.
  - destruct (DefaultCreateTimeout <=? now + took); cbn [issued];
      [destruct i; discriminate|].
    destruct (getServerInstanceOf answer) as [[[instance|] [err|]]|p]; cbn [issued];
      try (destruct i; discriminate).
    destruct (statusCode instance) as [code|p]; cbn [issued];
      try (destruct i; discriminate).
    destruct (String.eqb code status); cbn [issued]; try (destruct i; discriminate).
    destruct i as [|i].
    + cbn. intros [= <-] Hnext.
      destruct (poll_issued_first status (now + took + time.Second * 1) answers) as [more Hmore].
      rewrite Hmore in Hnext. cbn in Hnext. injection Hnext as <-.
      now exists took, answer.
    + intros Ht Ht'. exact (IH (now + took + time.Second * 1) i t t' Ht Ht').
Qed.

Lemma poll_everySecond status answers :
  everySecond answers (issued (poll status 0 answers)).
Proof.
  split.
  - destruct (poll_issued_first status 0 answers) as [more ->]. reflexivity.
  - apply poll_issued_step.
Qed.

Lemma waitForServerInstance_world instanceId status w :
  worldOf (waitForServerInstance instanceId status w)
  = setScript GetServerInstanceList (unread (poll status 0 (getResponses w)))
      (logCalls (map (fun _ => CallServer GetServerInstanceList instanceId)
                     (issued (poll status 0 (getResponses w)))) w).
Proof.
  unfold waitForServerInstance.
  now destruct (pollEnd (poll status 0 (getResponses w))).
Qed.

Lemma waitForServerInstance_returned instanceId status w res w' :
  waitForServerInstance instanceId status w = Returned res w' ->
  w' = worldOf (waitForServerInstance instanceId status w)
  /\ match res with
     | None => pollEnd (poll status 0 (getResponses w)) = PollSent None
     | Some err =>
         pollEnd (poll status 0 (getResponses w)) = PollSent (Some err)
         \/ (pollEnd (poll status 0 (getResponses w)) = PollTimeout
             /\ err = waitTimeoutError instanceId)
     end.
Proof.
  intros Hwait. split; [now rewrite Hwait|].
  revert Hwait. unfold waitForServerInstance.
  destruct (pollEnd (poll status 0 (getResponses w))) as [[err|]| |p];
    intros [= <- _]; auto.
Qed.

End PollFacts.

Lemma prefix_app s t : String.prefix s (s +:+ t) = true.
Proof.
  induction s as [|c s IH]; [now destruct t|].
  change (String c s +:+ t) with (String c (s +:+ t)).
  change (String.prefix (String c s) (String c (s +:+ t)))
    with (if ascii_dec c c then String.prefix s (s +:+ t) else false).
  destruct (ascii_dec c c); [exact IH | congruence].
Qed.

Lemma Contains_prefix s sub : String.prefix sub s = true -> GoStrings.Contains s sub = true.
Proof. intros Hp. destruct s; cbn [GoStrings.Contains]; now rewrite Hp. Qed.

Lemma Contains_app_r a s sub :
  GoStrings.Contains s sub = true -> GoStrings.Contains (a +:+ s) sub = true.
Proof.
  intros Hs. induction a as [|c a IH]; [exact Hs|].
  change (String c a +:+ s) with (String c (a +:+ s)).
  cbn [GoStrings.Contains]. rewrite IH. apply orb_true_r.
Qed.

Lemma waitTimeoutError_names_id instanceId :
  GoStrings.Contains (waitTimeoutError instanceId) instanceId = true.
Proof.
  unfold waitTimeoutError. apply Contains_app_r, Contains_prefix, prefix_app.
Qed.

(** C2 as it is worded fails: the wait also returns nil when the fetch
    finds no instance.  Here the only answer lists no instance, no
    answer of the script has the status RUN, and the wait for RUN
    succeeds. *)
Lemma waitForServerInstance_succeeds_without_instance :
  let w := worldWithGets [(time.Second * 2, answerOk [])] in
  (exists w', @waitForServerInstance sampleConstants "42" "RUN" w = Returned None w')
  /\ ~ (exists pre took answer rest,
           getResponses w = pre ++ (took, answer) :: rest /\ statusIs "RUN" answer).
Proof.
  intros w. split.
  - eexists. vm_compute. reflexivity.
  - intros (pre & took & answer & rest & Hscript & instance & Hget & _).
    destruct pre as [|x [|y pre]]; try discriminate.
    injection Hscript as _ <- _. discriminate.
Qed.

(** C2, amended: [waitForServerInstance] fetches the instance by the
    given id, the first time at once and then each time one second
    after the answer to the fetch before.  It returns nil only when,
    before the timer of [DefaultCreateTimeout] fired, a fetch found no
    instance or found the instance in the target status, all answers
    before that having shown another status; it does return nil when the
    status matches in time.  It returns the timeout error when the timer
    fires first (the next answer is late or never comes), and a fetch
    error that arrives in time ends the wait with that error. *)
Theorem waitForServerInstance_polls `{Constants} (instanceId status : string) (w : World) :
  calls (worldOf (waitForServerInstance instanceId status w))
  = calls w ++ map (fun _ => CallServer GetServerInstanceList instanceId)
                   (issued (poll status 0 (getResponses w)))
  /\ everySecond (getResponses w) (issued (poll status 0 (getResponses w)))
  /\ (forall w',
        waitForServerInstance instanceId status w = Returned None w' ->
        exists pre took answer,
          getResponses w = pre ++ (took, answer) :: getResponses w'
          /\ allPending status 0 pre = true
          /\ after 0 pre + took < DefaultCreateTimeout
          /\ (noInstance answer \/ statusIs status answer))
  /\ (forall pre took answer rest,
        getResponses w = pre ++ (took, answer) :: rest ->
        allPending status 0 pre = true ->
        after 0 pre + took < DefaultCreateTimeout ->
        statusIs status answer ->
        exists w', waitForServerInstance instanceId status w = Returned None w'
                   /\ getResponses w' = rest)
  /\ (forall pre rest,
        getResponses w = pre ++ rest ->
        allPending status 0 pre = true ->
        (rest = [] \/ exists took answer rest',
                        rest = (took, answer) :: rest'
                        /\ DefaultCreateTimeout <= after 0 pre + took) ->
        exists w', waitForServerInstance instanceId status w
                   = Returned (Some (waitTimeoutError instanceId)) w')
  /\ (forall pre took resp err rest,
        getResponses w = pre ++ (took, (resp, Some err)) :: rest ->
        allPending status 0 pre = true ->
        after 0 pre + took < DefaultCreateTimeout ->
        exists w', waitForServerInstance instanceId status w = Returned (Some err) w'
                   /\ getResponses w' = rest).
Proof.
  split; [|split; [|split; [|split; [|split]]]].
  - rewrite waitForServerInstance_world. reflexivity.
  - apply poll_everySecond.
  - intros w' Hwait.
    apply waitForServerInstance_returned in Hwait as [-> Hend].
    rewrite waitForServerInstance_world.
    change (getResponses (setScript GetServerInstanceList ?l _)) with l.
    now apply poll_sent_nil.
  - intros pre took answer rest Hscript Hpre Htime (instance & Hget & Hcode).
    unfold waitForServerInstance.
    rewrite Hscript, (poll_pending_prefix status pre 0 _ Hpre).
    cbn [poll pollEnd issued unread].
    destruct (Z.leb_spec DefaultCreateTimeout (after 0 pre + took)) as [Hle|_]; [lia|].
    rewrite Hget, Hcode, String.eqb_refl. cbn [pollEnd unread].
    eexists. split; reflexivity.
  - intros pre rest Hscript Hpre Hlate.
    unfold waitForServerInstance.
    rewrite Hscript, (poll_pending_prefix status pre 0 _ Hpre).
    destruct Hlate as [->|(took & answer & rest' & -> & Hle)];
      cbn [poll pollEnd issued unread].
    + now eexists.
    + destruct (Z.leb_spec DefaultCreateTimeout (after 0 pre + took)) as [_|Hlt]; [|lia].
      now eexists.
  - intros pre took resp err rest Hscript Hpre Htime.
    unfold waitForServerInstance.
    rewrite Hscript, (poll_pending_prefix status pre 0 _ Hpre).
    cbn [poll pollEnd issued unread].
    destruct (Z.leb_spec DefaultCreateTimeout (after 0 pre + took)) as [Hle|_]; [lia|].
    destruct resp; cbn [getServerInstanceOf pollEnd unread];
      eexists; split; reflexivity.
Qed.

Lemma waitForServerInstance_polls_witness :
  let w := worldWithGets [(time.Second * 2, answerOk [sampleInstance "42" "INIT"]);
                          (time.Second * 3, answerOk [sampleInstance "42" "RUN"]);
                          (time.Second * 1, answerOk [sampleInstance "42" "NSTOP"])] in
  exists w', @waitForServerInstance sampleConstants "42" "RUN" w = Returned None w'
             /\ getResponses w' = [(time.Second * 1, answerOk [sampleInstance "42" "NSTOP"])].
Proof.
  intros w.
  destruct (@waitForServerInstance_polls sampleConstants "42" "RUN" w)
    as (_ & _ & _ & Hmatch & _).
  apply (Hmatch [(time.Second * 2, answerOk [sampleInstance "42" "INIT"])]
                (time.Second * 3) (answerOk [sampleInstance "42" "RUN"])
                [(time.Second * 1, answerOk [sampleInstance "42" "NSTOP"])]).
  - reflexivity.
  - reflexivity.
  - vm_compute. reflexivity.
  - exists (sampleInstance "42" "RUN"). split; reflexivity.
Defined.

(** C3 as it is worded fails: the timeout error of a wait for RUN on
    the instance 42 names the id and does not name the status. *)
Lemma waitForServerInstance_timeout_without_status :
  exists w',
    @waitForServerInstance sampleConstants "42" "RUN" emptyWorld
    = Returned (Some "TIMEOUT : Wait to server instance  (42)") w'
    /\ GoStrings.Contains "TIMEOUT : Wait to server instance  (42)" "42" = true
    /\ GoStrings.Contains "TIMEOUT : Wait to server instance  (42)" "RUN" = false.
Proof. eexists. vm_compute. repeat split. Qed.

(** C3, amended: when the timer of a wait fires before the poll has
    sent a result, [waitForServerInstance] returns the error
    "TIMEOUT : Wait to server instance  (id)", which names the resource
    id that is waited on; the target status is no part of the message,
    which is the same for every target status. *)
Theorem waitForServerInstance_timeout_message `{Constants}
        (instanceId status : string) (w : World) :
  pollEnd (poll status 0 (getResponses w)) = PollTimeout ->
  exists w',
    waitForServerInstance instanceId status w
    = Returned (Some ("TIMEOUT : Wait to server instance  (" +:+ instanceId +:+ ")")) w'
    /\ GoStrings.Contains ("TIMEOUT : Wait to server instance  (" +:+ instanceId +:+ ")")
                          instanceId = true
    /\ forall status' v v' err,
        waitForServerInstance instanceId status' v = Returned (Some err) v' ->
        pollEnd (poll status' 0 (getResponses v)) = PollTimeout ->
        err = "TIMEOUT : Wait to server instance  (" +:+ instanceId +:+ ")".
Proof.
  intros Hend. unfold waitForServerInstance at 1. rewrite Hend.
  eexists. split; [reflexivity|]. split; [apply waitTimeoutError_names_id|].
  intros status' v v' err Hwait Hend'.
  unfold waitForServerInstance in Hwait. rewrite Hend' in Hwait.
  now injection Hwait as <- _.
Qed.

Lemma waitForServerInstance_timeout_message_witness :
  exists w',
    @waitForServerInstance sampleConstants "42" "RUN"
       (worldWithGets [(time.Hour * 2, answerOk [sampleInstance "42" "RUN"])])
    = Returned (Some "TIMEOUT : Wait to server instance  (42)") w'.
Proof.
  destruct (@waitForServerInstance_timeout_message sampleConstants "42" "RUN"
              (worldWithGets [(time.Hour * 2, answerOk [sampleInstance "42" "RUN"])]))
    as (w' & Hwait & _); [reflexivity|].
  exists w'. exact Hwait.
Defined.

(** ** Retries on the allow-listed error codes *)

Lemma isRetryableErr_carries resp codes :
  isRetryableErr (GetCommonResponse (Some resp)) codes = true <-> carries resp codes.
Proof.
  unfold isRetryableErr, carries. cbn [GetCommonResponse commonReturnCode].
  destruct (server.ReturnCode resp) as [code|].
  - rewrite existsb_exists. split.
    + intros (c & Hin & Heq). apply String.eqb_eq in Heq. subst c. eauto.
    + intros (c & [= <-] & Hin). exists code. split; [exact Hin|apply String.eqb_refl].
  - split; [discriminate|]. intros (c & Hc & _). discriminate.
Qed.


Section RetryFacts.
Context `{Constants} `{Wait}.




End RetryFacts.

Section RetryRuns.
Context `{Constants} `{Wait}.













End RetryRuns.




(** ** Create: the first instance of the response *)

Section CreateFacts.
Context `{Constants} `{Helpers} `{Schema} `{Wait}.

(** A run that ends without error ends on an answer for which the
    closure returned nil. *)
Lemma retryFrom_success_last {R} timeout (f : R -> Duration * option RetryError) answers :
  forall n elapsed resultErr,
    resource.result (resource.retryFrom n timeout f elapsed resultErr answers) = None ->
    exists r, resource.last (resource.retryFrom n timeout f elapsed resultErr answers) = Some r
              /\ snd (f r) = None.
Proof.
  induction answers as [|[took r] answers IH]; intros n elapsed resultErr;
    cbn [resource.retryFrom].
  - discriminate.
  - destruct (timeout <=? elapsed + took); [discriminate|].
    destruct (f r) as [pause [rerr|]] eqn:Hf.
    + destruct (resource.Retryable rerr); cbn [resource.result resource.last];
        [apply IH | discriminate].
    + intros _. exists r. now rewrite Hf.
Qed.

Lemma retry_success_last {R} timeout (f : R -> Duration * option RetryError) answers :
  forall elapsed resultErr,
    resource.result (resource.retry timeout f elapsed resultErr answers) = None ->
    exists r, resource.last (resource.retry timeout f elapsed resultErr answers) = Some r
              /\ snd (f r) = None.
Proof. intros elapsed resultErr. apply retryFrom_success_last. Qed.

Lemma createAttempt_nil resp err : snd (createAttempt (resp, err)) = None -> err = None.
Proof.
  unfold createAttempt.
  destruct (_ && _); destruct err; cbn; congruence.
Qed.

Lemma Set__Id d k v : schema.Id (fst (schema.Set_ d k v)) = schema.Id d.
Proof. unfold schema.Set_. now destruct (schema.setError k v). Qed.

Lemma setAll_Id kvs : forall d, schema.Id (setAll d kvs) = schema.Id d.
Proof.
  unfold setAll. induction kvs as [|kv kvs IH]; intros d; cbn [fold_left]; [reflexivity|].
  now rewrite IH, Set__Id.
Qed.

Lemma setChecked_Id kvs : forall d, schema.Id (fst (setChecked d kvs)) = schema.Id d.
Proof.
  induction kvs as [|[k v] kvs IH]; intros d; cbn [setChecked]; [reflexivity|].
  pose proof (Set__Id d k v) as Hid.
  destruct (schema.Set_ d k v) as [d1 [err|]]; cbn [fst] in *; [exact Hid|].
  now rewrite IH.
Qed.

(** The read refreshes attributes and leaves the id alone. *)
Lemma resourceNcloudServerRead_Id d w d' res w' :
  resourceNcloudServerRead d w = Returned (d', res) w' -> schema.Id d' = schema.Id d.
Proof.
  unfold resourceNcloudServerRead, bind.
  destruct (getServerInstance (schema.Id d) w) as [[[instance|] [err|]] w1| |];
    try discriminate; try (now intros [= <- _ _]).
  match goal with
  | |- context [setChecked ?d0 ?kvs] =>
      pose proof (setChecked_Id kvs d0) as Hid;
      destruct (setChecked d0 kvs) as [d1 [err|]]
  end; cbn [fst] in Hid; intros [= <- _ _].
  - now rewrite Hid, !setAll_Id.
  - destruct (negb _); now rewrite ?Set__Id, Hid, !setAll_Id.
Qed.

End CreateFacts.

(** C8: when the retry of CreateServerInstances ends without error,
    [resourceNcloudServerCreate] reads element 0 of the instance list
    of the response without a check: on an empty list it panics with an
    index out of range.  When the list has a first instance, the id of
    the resource is set to its ServerInstanceNo before the wait for the
    status RUN: the create is that wait followed, on success, by the
    read, both on the resource data with the new id, and whatever it
    returns carries that id. *)
Theorem resourceNcloudServerCreate_first_instance `{Constants} `{Helpers} `{Schema} `{Wait}
        (d : ResourceData) (w : World) (reqParams : server.CreateServerInstancesRequest) :
  buildCreateServerInstanceReqParams d = inl reqParams ->
  let run := resource.retry (10 * time.Minute) createAttempt 0 None (createResponses w) in
  let w1 := setScript CreateServerInstances (resource.rest run)
              (logCalls
                 (repeat (CallServer CreateServerInstances
                            (ncloud.StringValue (server.ReqServerName reqParams)))
                         (resource.attempts run)) w) in
  resource.result run = None ->
  exists resp,
    resource.last run = Some (resp, None)
    /\ (forall r,
          resp = Some r -> server.ServerInstanceList r = [] ->
          resourceNcloudServerCreate d w = Panicked IndexOutOfRange w1)
    /\ (forall r serverInstance more,
          resp = Some r -> server.ServerInstanceList r = serverInstance :: more ->
          let no := ncloud.StringValue (server.ServerInstanceNo serverInstance) in
          resourceNcloudServerCreate d w
          = match waitForServerInstance no "RUN" w1 with
            | Returned (Some err) w2 => Returned (schema.SetId d no, Some err) w2
            | Returned None w2 => resourceNcloudServerRead (schema.SetId d no) w2
            | Panicked p w2 => Panicked p w2
            | Blocked w2 => Blocked w2
            end
          /\ forall d' res w',
              resourceNcloudServerCreate d w = Returned (d', res) w' ->
              schema.Id d' = no).
Proof.
  intros Hbuild run w1 Hok.
  destruct (retry_success_last _ _ _ _ _ Hok) as ([resp err] & Hlast & Hnil).
  apply createAttempt_nil in Hnil. subst err.
  exists resp. split; [exact Hlast|].
  assert (Hcreate : resourceNcloudServerCreate d w
                    = createAfterRetry d (None, Some (resp, None)) w1).
  { unfold resourceNcloudServerCreate. rewrite Hbuild. unfold bind, Retry.
    cbn [script]. fold run. fold run in Hlast. now rewrite Hok, Hlast. }
  split.
  - intros r -> Hempty. rewrite Hcreate.
    unfold createAfterRetry, bind. cbn [firstServerInstance]. now rewrite Hempty.
  - intros r serverInstance more -> Hfirst no.
    assert (Hrun : resourceNcloudServerCreate d w
                   = match waitForServerInstance no "RUN" w1 with
                     | Returned (Some err) w2 => Returned (schema.SetId d no, Some err) w2
                     | Returned None w2 => resourceNcloudServerRead (schema.SetId d no) w2
                     | Panicked p w2 => Panicked p w2
                     | Blocked w2 => Blocked w2
                     end).
    { rewrite Hcreate. unfold createAfterRetry, bind. cbn [firstServerInstance].
      rewrite Hfirst. cbn [liftTry ret]. fold no.
      now destruct (waitForServerInstance no "RUN" w1) as [[err|] w2| |]. }
    split; [exact Hrun|].
    intros d' res w'. rewrite Hrun.
    destruct (waitForServerInstance no "RUN" w1) as [[err|] w2| |]; try discriminate.
    + now intros [= <- _ _].
    + intros Hread. now apply resourceNcloudServerRead_Id in Hread.
Qed.

Lemma resourceNcloudServerCreate_first_instance_witness :
  let w := {| createResponses := [(time.Second * 2, answerOk [])];
              getResponses := []; stopResponses := []; terminateResponses := [];
              changeSpecResponses := []; imageListResponses := [];
              detachResults := []; calls := []; files := [] |} in
  let v := {| createResponses := [(time.Second * 2, answerOk [sampleInstance "42" "INIT"])];
              getResponses := [(time.Hour * 2, answerOk [sampleInstance "42" "INIT"])];
              stopResponses := []; terminateResponses := [];
              changeSpecResponses := []; imageListResponses := [];
              detachResults := []; calls := []; files := [] |} in
  (exists w',
      @resourceNcloudServerCreate sampleConstants sampleHelpers sampleSchema sampleWait
        emptyData w = Panicked IndexOutOfRange w')
  /\ (exists v',
         @resourceNcloudServerCreate sampleConstants sampleHelpers sampleSchema sampleWait
           emptyData v
         = Returned (schema.SetId emptyData "42",
                     Some "TIMEOUT : Wait to server instance  (42)") v').
Proof.
  intros w v. split.
  - destruct (@resourceNcloudServerCreate_first_instance sampleConstants sampleHelpers
                sampleSchema sampleWait emptyData w _ eq_refl eq_refl)
      as (resp & Hlast & Hempty & _).
    injection Hlast as <-.
    eexists. exact (Hempty _ eq_refl eq_refl).
  - destruct (@resourceNcloudServerCreate_first_instance sampleConstants sampleHelpers
                sampleSchema sampleWait emptyData v _ eq_refl eq_refl)
      as (resp & Hlast & _ & Hfirst).
    injection Hlast as <-.
    destruct (Hfirst _ _ _ eq_refl eq_refl) as [Hrun _].
    rewrite Hrun. eexists. vm_compute. reflexivity.
Defined.

(** ** Delete: stop, wait, detach, terminate *)

Section DeleteFacts.
Context `{Constants} `{Helpers} `{Schema} `{Wait}.

Lemma callServer_world api no w :
  calls (worldOf (callServer api no w)) = calls w ++ [CallServer api no].
Proof.
  unfold callServer. cbn [logCalls].
  destruct (script api _); destruct api; reflexivity.
Qed.

Lemma getServerInstance_calls no w r w1 :
  getServerInstance no w = Returned r w1 ->
  calls w1 = calls w ++ [CallServer GetServerInstanceList no].
Proof.
  unfold getServerInstance, bind.
  pose proof (callServer_world GetServerInstanceList no w) as Hcalls.
  destruct (callServer GetServerInstanceList no w) as [answer w0| |]; try discriminate.
  destruct (getServerInstanceOf (snd answer)); cbn [liftTry ret panic]; [|discriminate].
  now intros [= _ <-].
Qed.

Lemma stopServerInstance_world no w :
  calls (worldOf (stopServerInstance no w)) = calls w ++ [CallServer StopServerInstances no]
  /\ forall p w', stopServerInstance no w <> Panicked p w'.
Proof.
  unfold stopServerInstance, bind.
  pose proof (callServer_world StopServerInstances no w) as Hcalls.
  assert (Hnopanic : forall p w', callServer StopServerInstances no w <> Panicked p w').
  { unfold callServer. now destruct (script _ _). }
  destruct (callServer StopServerInstances no w) as [[took [resp [err|]]] w0|p w0|w0];
    cbn [snd ret worldOf] in *; try (split; [exact Hcalls|discriminate]).
  now destruct (Hnopanic p w0).
Qed.

Lemma detachBlockStorageByServerInstanceNo_calls d no w res w' :
  detachBlockStorageByServerInstanceNo d no w = Returned res w' ->
  calls w' = calls w ++ [CallDetachBlockStorage no].
Proof.
  unfold detachBlockStorageByServerInstanceNo. cbn [logCalls detachResults].
  destruct (detachResults w); [discriminate|]. now intros [= _ <-].
Qed.




Lemma needsStop_of_code instance code :
  statusCode instance = Ok code ->
  needsStop (Some instance) = Ok (negb (String.eqb code "NSTOP")).
Proof. intros Hcode. unfold needsStop. now rewrite Hcode. Qed.

End DeleteFacts.



(** C9 as it is worded fails for the deletes in which the stop call
    fails: the instance is missing, StopServerInstances is issued and
    answers with an error, and the delete returns that error without
    reaching the dereference. *)
Lemma resourceNcloudServerDelete_missing_instance_stop_error :
  let d := withAttrs [] "42" in
  let w := {| createResponses := [];
              getResponses := [(time.Second * 1, answerOk [])];
              stopResponses := [(time.Second * 1, answerError "28102" "no such server")];
              terminateResponses := []; changeSpecResponses := [];
              imageListResponses := []; detachResults := []; calls := []; files := [] |} in
  (exists w1, @getServerInstance "42" w = Returned (None, None) w1)
  /\ exists ws,
      @resourceNcloudServerDelete sampleConstants sampleWait d w
      = Returned (d, Some "no such server") ws
      /\ calls ws = [CallServer GetServerInstanceList "42";
                     CallServer StopServerInstances "42"].
Proof.
  intros d w. split; eexists; vm_compute; [reflexivity|].
  split; reflexivity.
Qed.

(** C9, amended: when [getServerInstance] returns no instance and no
    error, the delete still enters the stop branch: StopServerInstances
    is the next and last call.  When that call returns nil, the delete
    dereferences the nil instance for its ServerInstanceNo and panics;
    when it returns an error, the delete returns that error.  The delete
    never succeeds: it is total only for an instance that exists. *)
Theorem resourceNcloudServerDelete_missing_instance `{Constants} `{Wait}
        (d : ResourceData) (w w1 : World) :
  getServerInstance (schema.Id d) w = Returned (None, None) w1 ->
  calls (worldOf (resourceNcloudServerDelete d w))
  = calls w1 ++ [CallServer StopServerInstances (schema.Id d)]
  /\ (forall ws,
         stopServerInstance (schema.Id d) w1 = Returned None ws ->
         resourceNcloudServerDelete d w = Panicked NilDereference ws)
  /\ (forall err ws,
         stopServerInstance (schema.Id d) w1 = Returned (Some err) ws ->
         resourceNcloudServerDelete d w = Returned (d, Some err) ws)
  /\ (forall d' w', resourceNcloudServerDelete d w <> Returned (d', None) w').
Proof.
  intros Hget.
  assert (Hdelete : resourceNcloudServerDelete d w
                    = match stopServerInstance (schema.Id d) w1 with
                      | Returned (Some err) ws => Returned (d, Some err) ws
                      | Returned None ws => Panicked NilDereference ws
                      | Panicked p ws => Panicked p ws
                      | Blocked ws => Blocked ws
                      end).
  { unfold resourceNcloudServerDelete, bind. rewrite Hget. cbn [needsStop liftTry ret].
    now destruct (stopServerInstance (schema.Id d) w1) as [[err|] ws| |]. }
  destruct (stopServerInstance_world (schema.Id d) w1) as [Hcalls _].
  split; [|split; [|split]].
  - rewrite Hdelete.
    now destruct (stopServerInstance (schema.Id d) w1) as [[err|] ws| |].
  - intros ws Hstop. now rewrite Hdelete, Hstop.
  - intros err ws Hstop. now rewrite Hdelete, Hstop.
  - intros d' w'. rewrite Hdelete.
    now destruct (stopServerInstance (schema.Id d) w1) as [[err|] ws| |].
Qed.

Lemma resourceNcloudServerDelete_missing_instance_witness :
  let d := withAttrs [] "42" in
  let w := {| createResponses := [];
              getResponses := [(time.Second * 1, answerOk [])];
              stopResponses := [(time.Second * 1, answerOk [])];
              terminateResponses := []; changeSpecResponses := [];
              imageListResponses := []; detachResults := []; calls := []; files := [] |} in
  exists ws,
    @resourceNcloudServerDelete sampleConstants sampleWait d w = Panicked NilDereference ws
    /\ calls ws = [CallServer GetServerInstanceList "42"; CallServer StopServerInstances "42"].
Proof.
  intros d w.
  destruct (@resourceNcloudServerDelete_missing_instance sampleConstants sampleWait d w
              (setScript GetServerInstanceList []
                 (logCalls [CallServer GetServerInstanceList "42"] w)) eq_refl)
    as (_ & Hpanic & _).
  eexists. split.
  - apply Hpanic. vm_compute. reflexivity.
  - reflexivity.
Defined.

(* ===================================================================== *)
(** * Part III: further properties of the package                         *)
(* ===================================================================== *)

(** ** The validators *)

Section MoreValidatorFacts.
Context `{Fmt} `{Strconv}.

Lemma stringIn_In value l : stringIn value l = true <-> In value l.
Proof.
  induction l as [|x l IH]; cbn [stringIn In]; [split; [discriminate|tauto]|].
  destruct (String.eqb_spec value x) as [->|Hne].
  - split; auto.
  - rewrite IH. split; [auto|]. intros [Heq|Hin]; [congruence|exact Hin].
Qed.

Lemma validateIncludes_nil includeValues v k :
  validateIncludes includeValues v k = None <-> In v includeValues.
Proof.
  unfold validateIncludes. rewrite <- stringIn_In.
  destruct (stringIn v includeValues); split; congruence.
Qed.

Lemma validateIncludes_error includeValues v k err :
  validateIncludes includeValues v k = Some err ->
  err = k +:+ " should be " +:+ GoStrings.Join includeValues " or ".
Proof.
  unfold validateIncludes. destruct (stringIn v includeValues); congruence.
Qed.

Lemma firstNotIncluded_spec includeValues k values :
  (firstNotIncluded includeValues values k = [] <->
   Forall (fun value => In value includeValues) values)
  /\ (firstNotIncluded includeValues values k <> [] ->
      firstNotIncluded includeValues values k
      = [k +:+ " should be " +:+ GoStrings.Join includeValues " or "]).
Proof.
  induction values as [|value values [IHnil IHerr]]; cbn [firstNotIncluded].
  - split; [split; [constructor|reflexivity]|congruence].
  - destruct (validateIncludes includeValues value k) as [err|] eqn:Hv.
    + pose proof (validateIncludes_error _ _ _ _ Hv) as ->. split; [|reflexivity].
      split; [discriminate|]. intros Hall. apply Forall_cons_iff in Hall as [Hin _].
      apply (validateIncludes_nil includeValues value k) in Hin.
      rewrite Hin in Hv. discriminate.
    + apply validateIncludes_nil in Hv. split; [|exact IHerr].
      rewrite IHnil. split; [now constructor|].
      intros Hall. now apply Forall_cons_iff in Hall.
Qed.

Lemma intIncludesLoop_spec k v includeValues :
  forall acc,
    (intIncludesLoop includeValues v acc k = None <-> In v includeValues)
    /\ (forall err,
           intIncludesLoop includeValues v acc k = Some err ->
           err = k +:+ " should be "
                   +:+ GoStrings.Join (acc ++ map strconvItoa includeValues) " or ").
Proof.
  induction includeValues as [|included more IH]; intros acc; cbn [intIncludesLoop map In].
  - split; [split; [discriminate|tauto]|]. intros err [= <-]. now rewrite app_nil_r.
  - destruct (Z.eqb_spec v included) as [->|Hne].
    + split; [split; auto|discriminate].
    + destruct (IH (acc ++ [strconvItoa included])) as [IHnil IHerr]. split.
      * rewrite IHnil. split; [auto|]. intros [Heq|Hin]; [congruence|exact Hin].
      * intros err Herr. rewrite (IHerr err Herr), <- app_assoc. reflexivity.
Qed.

Lemma firstIntNotIncluded_spec includeValues k values :
  (firstIntNotIncluded includeValues values k = [] <->
   Forall (fun value => In value includeValues) values)
  /\ (firstIntNotIncluded includeValues values k <> [] ->
      firstIntNotIncluded includeValues values k
      = [k +:+ " should be " +:+ GoStrings.Join (map strconvItoa includeValues) " or "]).
Proof.
  induction values as [|value values [IHnil IHerr]]; cbn [firstIntNotIncluded].
  - split; [split; [constructor|reflexivity]|congruence].
  - unfold validateIntIncludes.
    destruct (intIncludesLoop_spec k value includeValues []) as [Hnil Herr].
    destruct (intIncludesLoop includeValues value [] k) as [err|].
    + rewrite (Herr err eq_refl). split; [|reflexivity].
      split; [discriminate|]. intros Hall. apply Forall_cons_iff in Hall as [Hin _].
      apply Hnil in Hin. discriminate.
    + split; [|exact IHerr]. rewrite IHnil. split.
      * intros Hall. constructor; [now apply Hnil|exact Hall].
      * intros Hall. now apply Forall_cons_iff in Hall.
Qed.

End MoreValidatorFacts.

(** X1: [validateBoolValue] gives no warnings, accepts exactly the
    strings "true" and "false" (in this spelling), reports every other
    string with the single error "<key> should be true or false", and
    agrees with [validateIncludeValues] over [boolValueStrings]. *)
Theorem validateBoolValue_spec (value k : string) :
  fst (validateBoolValue value k) = []
  /\ (snd (validateBoolValue value k) = [] <-> value = "true" \/ value = "false")
  /\ (snd (validateBoolValue value k) <> [] ->
      snd (validateBoolValue value k) = [k +:+ " should be true or false"])
  /\ validateBoolValue value k = validateIncludeValues boolValueStrings (DString value) k.
Proof.
  unfold validateBoolValue, validateIncludeValues, boolValueStrings.
  cbn [stringsOfDyn firstNotIncluded]. unfold validateIncludes.
  pose proof (stringIn_In value ["true"; "false"]) as Hin. cbn [In] in Hin.
  destruct (stringIn value ["true"; "false"]); cbn [fst snd].
  - split; [reflexivity|]. split; [|split; [congruence|reflexivity]].
    split; [|reflexivity]. intros _.
    destruct (proj1 Hin eq_refl) as [<-|[<-|[]]]; auto.
  - split; [reflexivity|]. split; [|split; reflexivity].
    split; [discriminate|]. intros Hv.
    assert (false = true); [|discriminate].
    apply Hin. destruct Hv as [->| ->]; auto.
Qed.

(** X2: [validateInternetLineTypeCode] accepts exactly the codes PUBLC
    and GLBL and reports every other string with one error; it gives
    no warnings. *)
Theorem validateInternetLineTypeCode_spec (value k : string) :
  fst (validateInternetLineTypeCode value k) = []
  /\ (snd (validateInternetLineTypeCode value k) = [] <-> value = "PUBLC" \/ value = "GLBL")
  /\ (length (snd (validateInternetLineTypeCode value k)) <= 1)%nat.
Proof.
  unfold validateInternetLineTypeCode.
  destruct (String.eqb_spec value "PUBLC") as [->|Hp];
    [cbn; repeat split; auto|].
  destruct (String.eqb_spec value "GLBL") as [->|Hg];
    [cbn; repeat split; auto|].
  cbn. repeat split; auto; try discriminate.
  intros [?|?]; congruence.
Qed.

(** X3: the validator made by [validateStringLengthInRange min max]
    accepts exactly the strings of [min] to [max] bytes, reports any
    other with one error, and rejects every string when [max < min]. *)
Theorem validateStringLengthInRange_spec `{Fmt} (min max : Z) (value k : string) :
  fst (validateStringLengthInRange min max value k) = []
  /\ (snd (validateStringLengthInRange min max value k) = [] <-> min <= len value <= max)
  /\ (length (snd (validateStringLengthInRange min max value k)) <= 1)%nat
  /\ (max < min -> snd (validateStringLengthInRange min max value k) <> []).
Proof.
  unfold validateStringLengthInRange.
  destruct (Z.ltb_spec (len value) min) as [Hlo|Hlo];
    [cbn; repeat split; auto; try discriminate; lia|].
  destruct (Z.gtb_spec (len value) max) as [Hhi|Hhi];
    cbn; repeat split; auto; try discriminate; lia.
Qed.

(** X4: the validator made by [validateIntegerInRange min max] reports
    a value that is not an int (a string that does not parse, or a value
    of another type) with the single error "must be int" and checks
    nothing else; for an int it reports nothing exactly when the int is
    in [min, max], one error per violated bound otherwise, hence both
    errors for an int strictly between [max] and [min]. *)
Theorem validateIntegerInRange_spec `{Fmt} `{Strconv} (min max : Z) (v : Dyn) (k : string) :
  (intOfDyn v = None ->
   validateIntegerInRange min max v k = ([], [strconvQuote k +:+ " must be int"]))
  /\ (forall value,
         intOfDyn v = Some value ->
         fst (validateIntegerInRange min max v k) = []
         /\ (snd (validateIntegerInRange min max v k) = [] <-> min <= value <= max)
         /\ (value < min -> max < value ->
             snd (validateIntegerInRange min max v k)
             = [lowerThanError k min value; higherThanError k max value])
         /\ (min <= max -> (length (snd (validateIntegerInRange min max v k)) <= 1)%nat)).
Proof.
  unfold validateIntegerInRange. split.
  - intros ->. reflexivity.
  - intros value ->. cbv zeta.
    destruct (Z.ltb_spec value min) as [Hlo|Hlo];
      destruct (Z.gtb_spec value max) as [Hhi|Hhi];
      cbn; repeat split; auto; try discriminate; try lia.
Qed.

Lemma validateIntegerInRange_spec_witness :
  @validateIntegerInRange plainFmt sampleStrconv 1 10 (DString "ten") "port"
  = ([], [@strconvQuote plainFmt "port" +:+ " must be int"])
  /\ snd (@validateIntegerInRange plainFmt sampleStrconv 1 10 (DString "7") "port") = [].
Proof.
  destruct (@validateIntegerInRange_spec plainFmt sampleStrconv 1 10 (DString "ten") "port")
    as [Hbad _].
  destruct (@validateIntegerInRange_spec plainFmt sampleStrconv 1 10 (DString "7") "port")
    as [_ Hint].
  split.
  - apply Hbad. reflexivity.
  - destruct (Hint 7 eq_refl) as (_ & Hok & _). apply Hok. lia.
Defined.

(** X5: the validator made by [validateIncludeValues includeValues]
    accepts a string or a slice of strings exactly when every value is
    one of [includeValues]; otherwise it stops at the first value that
    is not and reports the single error "<key> should be ..." over the
    allowed values, which does not name the offending value.  A value
    of any other type is accepted unchecked. *)
Theorem validateIncludeValues_spec (includeValues : list string) (v : Dyn) (k : string) :
  fst (validateIncludeValues includeValues v k) = []
  /\ (snd (validateIncludeValues includeValues v k) = [] <->
      Forall (fun value => In value includeValues) (stringsOfDyn v))
  /\ (snd (validateIncludeValues includeValues v k) <> [] ->
      snd (validateIncludeValues includeValues v k)
      = [k +:+ " should be " +:+ GoStrings.Join includeValues " or "])
  /\ ((forall s, v <> DString s) -> (forall l, v <> DStrings l) ->
      validateIncludeValues includeValues v k = ([], [])).
Proof.
  unfold validateIncludeValues. cbn [fst snd].
  destruct (firstNotIncluded_spec includeValues k (stringsOfDyn v)) as [Hnil Herr].
  split; [reflexivity|]. split; [exact Hnil|]. split; [exact Herr|].
  intros Hs Hl. destruct v; try reflexivity; [now destruct (Hs s)|now destruct (Hl l)].
Qed.

(** X6: [validateIntIncludes] returns nil exactly when the int is one
    of [includeValues], and otherwise the error "<key> should be ..."
    over the decimal forms of all of them; the validator made by
    [validateIncludeIntValues] accepts an int or a slice of ints exactly
    when every value is included and reports at most that one error. *)
Theorem validateIncludeIntValues_spec `{Fmt} (includeValues : list Z) (v : Dyn) (k : string) :
  (forall n, validateIntIncludes includeValues n k = None <-> In n includeValues)
  /\ (forall n err,
         validateIntIncludes includeValues n k = Some err ->
         err = k +:+ " should be " +:+ GoStrings.Join (map strconvItoa includeValues) " or ")
  /\ (snd (validateIncludeIntValues includeValues v k) = [] <->
      Forall (fun value => In value includeValues) (intsOfDyn v))
  /\ (length (snd (validateIncludeIntValues includeValues v k)) <= 1)%nat.
Proof.
  unfold validateIncludeIntValues, validateIntIncludes. cbn [snd].
  destruct (firstIntNotIncluded_spec includeValues k (intsOfDyn v)) as [Hnil Herr].
  split; [intros n; apply (intIncludesLoop_spec k n includeValues [])|].
  split; [intros n err; apply (intIncludesLoop_spec k n includeValues [])|].
  split; [exact Hnil|].
  destruct (firstIntNotIncluded includeValues (intsOfDyn v) k) as [|e l] eqn:Hl;
    [cbn; lia|].
  rewrite Herr by discriminate. cbn. lia.
Qed.

Lemma validateBoolValue_spec_witness :
  snd (validateBoolValue "True" "enabled") = ["enabled should be true or false"]
  /\ snd (validateBoolValue "false" "enabled") = [].
Proof.
  destruct (validateBoolValue_spec "True" "enabled") as (_ & _ & Herr & _).
  destruct (validateBoolValue_spec "false" "enabled") as (_ & Hok & _).
  split.
  - apply Herr. discriminate.
  - apply Hok. now right.
Defined.

Lemma validateInternetLineTypeCode_spec_witness :
  snd (validateInternetLineTypeCode "GLBL" "internet_line_type_code") = [].
Proof.
  destruct (validateInternetLineTypeCode_spec "GLBL" "internet_line_type_code")
    as (_ & Hok & _).
  apply Hok. now right.
Defined.

Lemma validateStringLengthInRange_spec_witness :
  snd (@validateStringLengthInRange plainFmt 3 30 "web" "server_name") = []
  /\ snd (@validateStringLengthInRange plainFmt 5 2 "web" "server_name") <> [].
Proof.
  destruct (@validateStringLengthInRange_spec plainFmt 3 30 "web" "server_name")
    as (_ & Hok & _).
  destruct (@validateStringLengthInRange_spec plainFmt 5 2 "web" "server_name")
    as (_ & _ & _ & Hempty).
  split.
  - apply Hok. vm_compute. split; discriminate.
  - apply Hempty. lia.
Defined.

Lemma validateIncludeValues_spec_witness :
  snd (validateIncludeValues ["NET"; "LOCAL"] (DStrings ["NET"; "SSD"; "HDD"]) "disk")
  = ["disk should be NET or LOCAL"]
  /\ validateIncludeValues ["NET"; "LOCAL"] (DInt 3) "disk" = ([], []).
Proof.
  destruct (validateIncludeValues_spec ["NET"; "LOCAL"] (DStrings ["NET"; "SSD"; "HDD"]) "disk")
    as (_ & _ & Herr & _).
  destruct (validateIncludeValues_spec ["NET"; "LOCAL"] (DInt 3) "disk")
    as (_ & _ & _ & Hother).
  split.
  - apply Herr. discriminate.
  - apply Hother; discriminate.
Defined.

Lemma validateIncludeIntValues_spec_witness :
  @validateIntIncludes plainFmt [1; 2; 3] 7 "count" = Some "count should be 1 or 2 or 3"
  /\ snd (@validateIncludeIntValues plainFmt [1; 2; 3] (DInts [3; 1]) "count") = [].
Proof.
  destruct (@validateIncludeIntValues_spec plainFmt [1; 2; 3] (DInts [3; 1]) "count")
    as (_ & Herr & Hok & _).
  split.
  - destruct (@validateIntIncludes plainFmt [1; 2; 3] 7 "count") as [err|] eqn:Hv;
      [|discriminate].
    now rewrite (Herr 7 err Hv).
  - apply Hok. cbn [intsOfDyn].
    constructor; [cbn; tauto|]. constructor; [cbn; tauto|]. constructor.
Defined.

Section ServerNameFacts.
Context `{Fmt}.

Lemma LastIndex_hyphen_last_or_empty value :
  (GoStrings.LastIndex value "-" =? len value - 1)
  = endsInHyphen value || String.eqb value "".
Proof.
  destruct value as [|c s]; [reflexivity|].
  rewrite LastIndex_hyphen_last by discriminate.
  now rewrite orb_false_r.
Qed.

End ServerNameFacts.

(** X7: [validateServerName] gives no warnings and reports, in this
    order, the length error exactly when the value has fewer than 3 or
    more than 30 bytes, and the pattern error exactly when the value
    has no byte of the class of the pattern, or ends in a hyphen, or is
    empty.  The empty string gets both errors. *)
Theorem validateServerName_errors `{Fmt} (value k : string) :
  validateServerName value k
  = ([], (if (len value <? 3) || (len value >? 30) then [serverNameLengthError k] else [])
         ++ (if negb (existsChar isServerNameClassChar value)
                || (endsInHyphen value || String.eqb value "")
             then [serverNamePatternError] else []))
  /\ (value = "" ->
      snd (validateServerName value k) = [serverNameLengthError k; serverNamePatternError]).
Proof.
  assert (Heq : validateServerName value k
                = ([], (if (len value <? 3) || (len value >? 30)
                        then [serverNameLengthError k] else [])
                       ++ (if negb (existsChar isServerNameClassChar value)
                              || (endsInHyphen value || String.eqb value "")
                           then [serverNamePatternError] else []))).
  { unfold validateServerName. cbv zeta.
    rewrite serverNamePattern_MatchString_spec, LastIndex_hyphen_last_or_empty.
    destruct ((len value <? 3) || (len value >? 30));
      destruct (negb _ || _); reflexivity. }
  split; [exact Heq|].
  intros ->. rewrite Heq. reflexivity.
Qed.

Lemma validateServerName_errors_witness :
  snd (@validateServerName plainFmt "" "server_name")
  = [@serverNameLengthError plainFmt "server_name"; serverNamePatternError].
Proof.
  destruct (@validateServerName_errors plainFmt "" "server_name") as [_ Hempty].
  apply Hempty. reflexivity.
Defined.

(** ** Fetching the instance *)

Lemma getServerInstance_world no w :
  calls (worldOf (getServerInstance no w)) = calls w ++ [CallServer GetServerInstanceList no].
Proof.
  unfold getServerInstance, bind.
  pose proof (callServer_world GetServerInstanceList no w) as Hcalls.
  destruct (callServer GetServerInstanceList no w) as [answer w0| |]; try exact Hcalls.
  now destruct (getServerInstanceOf (snd answer)).
Qed.

Lemma getServerInstance_answer no w r w1 :
  getServerInstance no w = Returned r w1 ->
  exists took answer,
    getResponses w = (took, answer) :: getResponses w1
    /\ getServerInstanceOf answer = Ok r.
Proof.
  unfold getServerInstance, bind, callServer. cbn [script logCalls getResponses].
  destruct (getResponses w) as [|[took answer] more]; [discriminate|].
  cbn [snd]. destruct (getServerInstanceOf answer) as [r'|p] eqn:Hof;
    cbn [liftTry ret panic]; [|discriminate].
  intros [= <- <-]. now exists took, answer.
Qed.

(** X8: [getServerInstance] makes exactly one call of
    GetServerInstanceList, for the given instance number, whatever its
    outcome.  When it returns, it has read one answer; an error comes
    without an instance, and an instance is the first one of the list
    of an answer without error; an answer without error that lists no
    instance gives neither instance nor error. *)
Theorem getServerInstance_spec (serverInstanceNo : string) (w : World) :
  calls (worldOf (getServerInstance serverInstanceNo w))
  = calls w ++ [CallServer GetServerInstanceList serverInstanceNo]
  /\ (forall instance err w1,
         getServerInstance serverInstanceNo w = Returned (instance, err) w1 ->
         exists took resp,
           getResponses w = (took, (resp, err)) :: getResponses w1
           /\ (err <> None -> instance = None)
           /\ (err = None ->
               exists r, resp = Some r
                         /\ instance = match server.ServerInstanceList r with
                                       | first :: _ => Some first
                                       | [] => None
                                       end)).
Proof.
  split; [apply getServerInstance_world|].
  intros instance err w1 Hget.
  destruct (getServerInstance_answer _ _ _ _ Hget) as (took & [resp aerr] & Hscript & Hof).
  exists took, resp. revert Hof. cbn [getServerInstanceOf].
  destruct aerr as [e|].
  - destruct resp; intros [= <- <-]; (split; [exact Hscript|]); split; congruence.
  - destruct resp as [r|]; [|discriminate].
    destruct (server.ServerInstanceList r) as [|first more] eqn:Hlist;
      intros [= <- <-]; (split; [exact Hscript|]); (split; [congruence|]);
      intros _; exists r; rewrite Hlist; auto.
Qed.

Lemma getServerInstance_spec_witness :
  let w := worldWithGets [(time.Second * 1,
                           answerOk [sampleInstance "42" "RUN"; sampleInstance "43" "INIT"])] in
  exists w1,
    getServerInstance "42" w = Returned (Some (sampleInstance "42" "RUN"), None) w1
    /\ calls w1 = [CallServer GetServerInstanceList "42"].
Proof.
  intros w.
  destruct (getServerInstance_spec "42" w) as [Hcalls Hret].
  destruct (getServerInstance "42" w) as [[instance err] w1| |] eqn:Hget;
    try (vm_compute in Hget; discriminate).
  destruct (Hret instance err w1 eq_refl) as (took & resp & Hscript & _ & Hinst).
  injection Hscript as _ <- <- _.
  destruct (Hinst eq_refl) as (r & [= <-] & ->).
  exists w1. split; [reflexivity|]. exact Hcalls.
Defined.

(** X9: [getServerZoneNo] returns the empty string whenever it returns
    an error, and also, without error, when the instance is missing or
    has no zone; a zone number that is not empty is the zone number of
    the first instance fetched.  It panics on a zone without number.  It
    makes the single call of [getServerInstance]. *)
Theorem getServerZoneNo_spec (serverInstanceNo : string) (w : World) :
  (forall zoneNo err w1,
      getServerZoneNo serverInstanceNo w = Returned (zoneNo, err) w1 ->
      (err <> None -> zoneNo = "")
      /\ (zoneNo <> "" ->
          exists instance zone,
            getServerInstance serverInstanceNo w = Returned (Some instance, None) w1
            /\ server.ServerZone instance = Some zone
            /\ server.ZoneNo zone = Some zoneNo)
      /\ calls w1 = calls w ++ [CallServer GetServerInstanceList serverInstanceNo])
  /\ (forall instance w1,
         getServerInstance serverInstanceNo w = Returned (instance, None) w1 ->
         (forall i, instance = Some i -> server.ServerZone i = None) ->
         getServerZoneNo serverInstanceNo w = Returned ("", None) w1)
  /\ (forall instance zone w1,
         getServerInstance serverInstanceNo w = Returned (Some instance, None) w1 ->
         server.ServerZone instance = Some zone ->
         server.ZoneNo zone = None ->
         getServerZoneNo serverInstanceNo w = Panicked NilDereference w1).
Proof.
  unfold getServerZoneNo, bind, ret, panic. split; [|split].
  - intros zoneNo err w1.
    destruct (getServerInstance serverInstanceNo w) as [[instance gerr] w0| |] eqn:Hget;
      try discriminate.
    pose proof (getServerInstance_calls _ _ _ _ Hget) as Hcalls.
    destruct gerr as [e|].
    + destruct instance; intros [= <- <- <-]; repeat split;
        solve [congruence|exact Hcalls].
    + destruct instance as [instance|].
      * destruct (server.ServerZone instance) as [zone|] eqn:Hzone.
        -- destruct (server.ZoneNo zone) as [z|] eqn:Hno; [|discriminate].
           intros [= <- <- <-]. split; [congruence|]. split; [|exact Hcalls].
           intros _. now exists instance, zone.
        -- intros [= <- <- <-]. repeat split; [congruence|exact Hcalls].
      * intros [= <- <- <-]. repeat split; [congruence|exact Hcalls].
  - intros instance w1 -> Hnozone.
    destruct instance as [i|]; [|reflexivity].
    now rewrite (Hnozone i eq_refl).
  - intros instance zone w1 -> -> ->. reflexivity.
Qed.

Lemma getServerZoneNo_spec_witness :
  getServerZoneNo "42" (worldWithGets [(time.Second * 1, answerOk [])])
  = Returned ("", None)
      (setScript GetServerInstanceList []
         (logCalls [CallServer GetServerInstanceList "42"]
            (worldWithGets [(time.Second * 1, answerOk [])]))).
Proof.
  destruct (getServerZoneNo_spec "42" (worldWithGets [(time.Second * 1, answerOk [])]))
    as (_ & Hmissing & _).
  apply (Hmissing None); [reflexivity|discriminate].
Defined.

(** ** The read of the server resource *)

Section ServerReadFacts.
Context `{Helpers} `{Schema}.






Lemma resourceNcloudServerRead_world d w :
  calls (worldOf (resourceNcloudServerRead d w))
  = calls w ++ [CallServer GetServerInstanceList (schema.Id d)].
Proof.
  unfold resourceNcloudServerRead, bind.
  pose proof (getServerInstance_world (schema.Id d) w) as Hcalls.
  destruct (getServerInstance (schema.Id d) w) as [[[instance|] [err|]] w1| |];
    try exact Hcalls.
  now destruct (setChecked _ _) as [d1 [err|]].
Qed.

End ServerReadFacts.

(** X10: [resourceNcloudServerRead] makes exactly one call, the fetch
    of the instance by the id of the resource, and never changes the
    id.  A fetch error is returned with the resource data unchanged;
    an instance that is not found is no error: the read returns nil and
    leaves the resource data, id included, as it was. *)
Theorem resourceNcloudServerRead_unchanged `{Helpers} `{Schema}
        (d : ResourceData) (w : World) :
  calls (worldOf (resourceNcloudServerRead d w))
  = calls w ++ [CallServer GetServerInstanceList (schema.Id d)]
  /\ (forall d' res w',
         resourceNcloudServerRead d w = Returned (d', res) w' -> schema.Id d' = schema.Id d)
  /\ (forall instance err w1,
         getServerInstance (schema.Id d) w = Returned (instance, Some err) w1 ->
         resourceNcloudServerRead d w = Returned (d, Some err) w1)
  /\ (forall w1,
         getServerInstance (schema.Id d) w = Returned (None, None) w1 ->
         resourceNcloudServerRead d w = Returned (d, None) w1).
Proof.
  split; [apply resourceNcloudServerRead_world|].
  split; [intros d' res w'; apply resourceNcloudServerRead_Id|].
  unfold resourceNcloudServerRead, bind. split.
  - intros instance err w1 ->. now destruct instance.
  - intros w1 ->. reflexivity.
Qed.

Lemma resourceNcloudServerRead_unchanged_witness :
  let d := withAttrs [("server_name", VString "web")] "42" in
  let w := worldWithGets [(time.Second * 1, answerOk [])] in
  exists w1, @resourceNcloudServerRead sampleHelpers sampleSchema d w = Returned (d, None) w1.
Proof.
  intros d w.
  destruct (@resourceNcloudServerRead_unchanged sampleHelpers sampleSchema d w)
    as (_ & _ & _ & Hmissing).
  eexists. apply Hmissing. reflexivity.
Defined.



(** ** Runs that end without error *)

Section RunFacts.
Context `{Constants} `{Wait}.

(** A run without error has read answers that asked for a retry, each
    of them in time, and then, in time as well, one on which the
    closure returned nil; it made one call per answer read. *)
Lemma retryFrom_success_shape timeout (f : ApiResult -> Duration * option RetryError)
      allow pause answers :
  (forall took a p rerr,
      f a = (p, Some rerr) -> resource.Retryable rerr = true ->
      retryable allow (took, a) /\ p = pause) ->
  forall n elapsed resultErr,
    resource.result (resource.retryFrom n timeout f elapsed resultErr answers) = None ->
    exists pre took r,
      answers = pre ++ (took, r)
                    :: resource.rest (resource.retryFrom n timeout f elapsed resultErr answers)
      /\ snd (f r) = None
      /\ resource.attempts (resource.retryFrom n timeout f elapsed resultErr answers)
         = S (length pre)
      /\ allRetried allow timeout pause n elapsed pre
      /\ elapsedAfter pause n elapsed pre + took < timeout.
Proof.
  intros Hf.
  induction answers as [|[took r] answers IH]; intros n elapsed resultErr;
    cbn [resource.retryFrom].
  - discriminate.
  - destruct (Z.leb_spec timeout (elapsed + took)) as [Hle|Hlt]; [discriminate|].
    destruct (f r) as [p [rerr|]] eqn:Hfr.
    + destruct (resource.Retryable rerr) eqn:Hretry;
        cbn [resource.result resource.rest resource.attempts]; [|discriminate].
      destruct (Hf took r p rerr Hfr Hretry) as [Hanswer ->].
      intros Hok.
      destruct (IH _ _ _ Hok) as (pre & took' & r' & Heq & Hnil & Hn & Hpre & Htime).
      exists ((took, r) :: pre), took', r'. cbn [app length allRetried elapsedAfter].
      rewrite <- Heq, Hn. repeat split; assumption.
    + intros _. exists [], took, r.
      cbn [app length resource.rest resource.attempts allRetried elapsedAfter].
      rewrite Hfr. repeat split. exact Hlt.
Qed.

Lemma allRetried_retryable allow timeout pause pre :
  forall n elapsed,
    allRetried allow timeout pause n elapsed pre -> Forall (retryable allow) pre.
Proof.
  induction pre as [|[took a] pre IH]; intros n elapsed; [constructor|].
  intros (_ & Ha & Hpre). constructor; [exact Ha|]. exact (IH _ _ Hpre).
Qed.

Lemma terminateAttempt_nil resp err :
  snd (terminateAttempt (resp, err)) = None -> err = None.
Proof.
  unfold terminateAttempt. destruct err as [e|]; [|reflexivity].
  destruct (_ && _); discriminate.
Qed.

Lemma terminateAttempt_retryable took a p rerr :
  terminateAttempt a = (p, Some rerr) ->
  resource.Retryable rerr = true ->
  retryable terminateAllowList (took, a) /\ p = 0.
Proof.
  destruct a as [resp err]. unfold terminateAttempt, retryable. cbn [snd].
  destruct err as [e|];
    [|destruct resp; [destruct (_ && _)|]; intros [= _ Hr]; discriminate].
  destruct resp as [r|]; cbn [andb].
  - destruct (isRetryableErr _ _) eqn:Hcode; cbn [RetryableError NonRetryableError].
    + intros [= <- _] _. split; [|reflexivity].
      exists r, e. split; [reflexivity|]. now apply isRetryableErr_carries.
    + intros [= _ <-]. discriminate.
  - cbn. intros [= _ <-]. discriminate.
Qed.

End RunFacts.

(** X12: [terminateServerInstance] returns nil only when a call of
    TerminateServerInstances returned without error within the minute,
    every call before it in the run having failed, within the minute as
    well, with a code of the allow-list; it has then made exactly one
    call per answer read.  The time is that of the calls and of the
    waits of the library between them.  A nil response that comes with
    a nil error counts as success. *)
Theorem terminateServerInstance_success `{Constants} `{Wait}
        (serverInstanceNo : string) (w : World) :
  (forall w',
      terminateServerInstance serverInstanceNo w = Returned None w' ->
      exists pre took resp,
        terminateResponses w = pre ++ (took, (resp, None)) :: terminateResponses w'
        /\ Forall (retryable terminateAllowList) pre
        /\ allRetried terminateAllowList (1 * time.Minute) 0 0 0 pre
        /\ elapsedAfter 0 0 0 pre + took < 1 * time.Minute
        /\ calls w' = calls w ++
                      repeat (CallServer TerminateServerInstances serverInstanceNo)
                             (S (length pre)))
  /\ (forall took more,
         terminateResponses w = (took, (None, None)) :: more ->
         took < 1 * time.Minute ->
         terminateServerInstance serverInstanceNo w
         = Returned None
             (setScript TerminateServerInstances more
                (logCalls [CallServer TerminateServerInstances serverInstanceNo] w))).
Proof.
  split.
  - intros w'. unfold terminateServerInstance, bind, Retry, resource.retry.
    cbn [fst script].
    destruct (resource.result _) as [err|] eqn:Hres; [discriminate|].
    intros [= <-].
    destruct (retryFrom_success_shape _ _ terminateAllowList 0 _
                terminateAttempt_retryable _ _ _ Hres)
      as (pre & took & [resp err] & Heq & Hnil & Hn & Hpre & Htime).
    apply terminateAttempt_nil in Hnil. subst err.
    exists pre, took, resp. cbn [setScript terminateResponses logCalls calls].
    split; [exact Heq|].
    split; [exact (allRetried_retryable _ _ _ _ _ _ Hpre)|].
    split; [exact Hpre|]. split; [exact Htime|]. now rewrite Hn.
  - intros took more Hscript Htime.
    unfold terminateServerInstance, bind, Retry, resource.retry. cbn [script].
    rewrite Hscript. cbn [resource.retryFrom].
    destruct (Z.leb_spec (1 * time.Minute) (0 + took)) as [Hle|_]; [lia|].
    reflexivity.
Qed.

Lemma terminateServerInstance_success_witness :
  let w := {| createResponses := []; getResponses := []; stopResponses := [];
              terminateResponses := [(time.Second * 2, (None, None))];
              changeSpecResponses := []; imageListResponses := [];
              detachResults := []; calls := []; files := [] |} in
  let busy := {| createResponses := []; getResponses := []; stopResponses := [];
                 terminateResponses :=
                   [(time.Second * 1, answerError "25033" "in operation");
                    (time.Second * 1, answerOk [])];
                 changeSpecResponses := []; imageListResponses := [];
                 detachResults := []; calls := []; files := [] |} in
  (exists w', @terminateServerInstance sampleConstants sampleWait "42" w = Returned None w'
              /\ calls w' = [CallServer TerminateServerInstances "42"])
  /\ (exists w' pre took resp,
         @terminateServerInstance sampleConstants sampleWait "42" busy = Returned None w'
         /\ terminateResponses busy = pre ++ (took, (resp, None)) :: terminateResponses w'
         /\ @allRetried sampleWait (@terminateAllowList sampleConstants)
              (1 * time.Minute) 0 0 0 pre
         /\ @elapsedAfter sampleWait 0 0 0 pre + took < 1 * time.Minute).
Proof.
  intros w busy. split.
  - destruct (@terminateServerInstance_success sampleConstants sampleWait "42" w)
      as [_ Hnil].
    eexists. split.
    + apply (Hnil (time.Second * 2) []); reflexivity.
    + reflexivity.
  - destruct (@terminateServerInstance_success sampleConstants sampleWait "42" busy)
      as [Honly _].
    destruct (Honly (setScript TerminateServerInstances []
                       (logCalls (repeat (CallServer TerminateServerInstances "42") 2)
                          busy)) eq_refl)
      as (pre & took & resp & Hscript & _ & Hpre & Htime & _).
    exists (setScript TerminateServerInstances []
              (logCalls (repeat (CallServer TerminateServerInstances "42") 2) busy)),
      pre, took, resp.
    split; [reflexivity|]. split; [exact Hscript|]. split; [exact Hpre|exact Htime].
Defined.

(** ** The number of fetches of a wait *)

Section PollBound.
Context `{Constants}.

(** A poll that ends with what the goroutine sent has issued its
    fetches one second and more apart, the last of them before the
    timer fired. *)
Lemma poll_sent_bounded status answers res :
  forall now,
    Forall (fun a => 0 <= fst a) answers ->
    pollEnd (poll status now answers) = PollSent res ->
    (1 <= length (issued (poll status now answers)))%nat
    /\ now + (Z.of_nat (length (issued (poll status now answers))) - 1) * time.Second
       < DefaultCreateTimeout.
Proof.
  assert (Hsec : time.Second = 1000000000) by reflexivity.
  induction answers as [|[took answer] answers IH]; intros now Hall; cbn [poll].
  - discriminate.
  - apply Forall_cons_iff in Hall as [Htook Hall]. cbn [fst] in Htook.
    destruct (Z.leb_spec DefaultCreateTimeout (now + took)) as [Hle|Hlt];
      [discriminate|].
    destruct (getServerInstanceOf answer) as [[[instance|] [err|]]|p];
      try discriminate; try (cbn [issued length pollEnd]; intros _; lia).
    destruct (statusCode instance) as [code|p]; try discriminate.
    destruct (String.eqb code status); try (cbn [issued length pollEnd]; intros _; lia).
    cbn [issued length pollEnd]. intros Hsent.
    destruct (IH (now + took + time.Second * 1) Hall Hsent) as [Hone Hbound].
    split; [lia|]. rewrite Hsec in *. lia.
Qed.

Lemma map_const_repeat {A B} (c : B) (l : list A) :
  map (fun _ => c) l = repeat c (length l).
Proof. induction l as [|x l IH]; cbn; [reflexivity|now rewrite IH]. Qed.

End PollBound.

(** X13: when no answer takes a negative time, a [waitForServerInstance]
    that ends with what its goroutine sent, the timer not having
    fired, returns that result after at least one fetch and at most as
    many fetches as [DefaultCreateTimeout] has seconds begun; all of
    its calls are fetches of the given instance. *)
Theorem waitForServerInstance_fetches_bounded `{Constants}
        (instanceId status : string) (w : World) (res : option error) :
  Forall (fun a => 0 <= fst a) (getResponses w) ->
  pollEnd (poll status 0 (getResponses w)) = PollSent res ->
  exists (n : nat) (w' : World),
    waitForServerInstance instanceId status w = Returned res w'
    /\ calls w' = calls w ++ repeat (CallServer GetServerInstanceList instanceId) n
    /\ (1 <= n)%nat
    /\ (Z.of_nat n - 1) * time.Second < DefaultCreateTimeout.
Proof.
  intros Hall Hsent.
  exists (length (issued (poll status 0 (getResponses w)))).
  unfold waitForServerInstance. rewrite Hsent.
  eexists. split; [reflexivity|]. cbn [setScript logCalls calls].
  rewrite map_const_repeat. split; [reflexivity|].
  destruct (poll_sent_bounded status (getResponses w) res 0 Hall Hsent) as [Hone Hbound].
  split; [exact Hone|]. lia.
Qed.

Lemma waitForServerInstance_fetches_bounded_witness :
  let w := worldWithGets [(time.Second * 2, answerOk [sampleInstance "42" "INIT"]);
                          (time.Second * 2, answerOk [sampleInstance "42" "RUN"])] in
  exists (n : nat) (w' : World),
    @waitForServerInstance sampleConstants "42" "RUN" w = Returned None w'
    /\ calls w' = repeat (CallServer GetServerInstanceList "42") n
    /\ (n <= 3600)%nat.
Proof.
  intros w.
  destruct (@waitForServerInstance_fetches_bounded sampleConstants "42" "RUN" w None)
    as (n & w' & Hwait & Hcalls & _ & Hbound).
  - apply Forall_cons; split; [discriminate|].
    apply Forall_cons; split; [discriminate|]. apply Forall_nil; exact I.
  - reflexivity.
  - exists n, w'. split; [exact Hwait|]. split; [exact Hcalls|].
    change (@DefaultCreateTimeout sampleConstants) with 3600000000000 in Hbound.
    change time.Second with 1000000000 in Hbound. lia.
Defined.

(** ** The member server images data source, its results *)

Section ImagesFacts.
Context `{Helpers} `{Regexp} `{Schema}.

Lemma collectIds_spec images :
  forall acc,
    match collectIds acc images with
    | Ok ids =>
        ids = acc ++ imageNumbers images
        /\ Forall (fun m => server.MemberServerImageNo m <> None) images
    | Panic p =>
        p = NilDereference
        /\ Exists (fun m => server.MemberServerImageNo m = None) images
    end.
Proof.
  unfold imageNumbers.
  induction images as [|m images IH]; intros acc; cbn [collectIds map].
  - split; [now rewrite app_nil_r|constructor].
  - destruct (server.MemberServerImageNo m) as [no|] eqn:Hno.
    + specialize (IH (acc ++ [no])).
      destruct (collectIds (acc ++ [no]) images) as [ids|p].
      * destruct IH as [-> Hall]. rewrite <- app_assoc. cbn [ncloud.StringValue].
        split; [reflexivity|]. constructor; [congruence|exact Hall].
      * destruct IH as [-> Hex]. split; [reflexivity|]. now constructor 2.
    + split; [reflexivity|]. now constructor 1.
Qed.

(** What [memberServerImagesAttributes] leaves in the resource data
    when it returns nil. *)
Lemma memberServerImagesAttributes_data d images w d' w' :
  memberServerImagesAttributes d images w = Returned (d', None) w' ->
  schema.Id d' = dataResourceIdHash (imageNumbers images)
  /\ schema.attrs d'
     = <["member_server_images" := flattenMemberServerImages images]> (schema.attrs d)
  /\ calls w' = calls w.
Proof.
  unfold memberServerImagesAttributes, bind.
  pose proof (collectIds_spec images []) as Hids.
  destruct (collectIds [] images) as [ids|p]; cbn [liftTry ret panic]; [|discriminate].
  destruct Hids as [-> _]. cbn [app].
  unfold schema.Set_.
  destruct (schema.setError _ _) as [err|]; [discriminate|].
  destruct (schema.GetOk _ "output_file") as [output|].
  - destruct (negb _); unfold writeToFile, ret; intros [= <- <-]; auto.
  - unfold ret. intros [= <- <-]. auto.
Qed.

End ImagesFacts.

(** X14: a read of the member server images data source that returns
    nil has fetched the image list once, has kept a list of images that
    is not empty, and has set the id to the hash of the numbers of
    these images, in the vendor's order, and the attribute
    [member_server_images] to their flattened form; no other attribute
    has changed. *)
Theorem dataSourceNcloudMemberServerImagesRead_success
        `{Helpers} `{Regexp} `{Schema}
        (d d' : ResourceData) (w w' : World) :
  dataSourceNcloudMemberServerImagesRead d w = Returned (d', None) w' ->
  exists resp filtered more,
    imageListResponses w = (Some resp, None) :: more
    /\ filteredMemberServerImages d (server.MemberServerImageList resp) = Ok filtered
    /\ filtered <> []
    /\ schema.Id d' = dataResourceIdHash (imageNumbers filtered)
    /\ schema.attrs d'
       = <["member_server_images" := flattenMemberServerImages filtered]> (schema.attrs d)
    /\ calls w' = calls w ++ [CallGetMemberServerImageList].
Proof.
  unfold dataSourceNcloudMemberServerImagesRead.
  destruct (parseRegionNoParameter d) as [regionNo [err|]]; [discriminate|].
  unfold bind at 1.
  destruct (callGetMemberServerImageList w) as [answer w1| |] eqn:Hcall; try discriminate.
  apply callGetMemberServerImageList_files in Hcall as (_ & Hcalls & more & Hscript & _).
  destruct answer as [[resp|] [err|]]; try discriminate.
  unfold bind.
  destruct (filteredMemberServerImages d _) as [filtered|p] eqn:Hfiltered;
    cbn [liftTry ret panic]; [|discriminate].
  destruct (Z.ltb_spec (Z.of_nat (length filtered)) 1) as [Hlt|Hge]; [discriminate|].
  intros Hattr. apply memberServerImagesAttributes_data in Hattr as (Hid & Hattrs & Hsame).
  exists resp, filtered, more.
  split; [exact Hscript|]. split; [exact Hfiltered|].
  split; [intros ->; cbn in Hge; lia|].
  split; [exact Hid|]. split; [exact Hattrs|]. now rewrite Hsame.
Qed.

Lemma dataSourceNcloudMemberServerImagesRead_success_witness :
  let d := withAttrs [("member_server_image_name_regex", VString "web")] "" in
  let w := {| createResponses := []; getResponses := []; stopResponses := [];
              terminateResponses := []; changeSpecResponses := [];
              imageListResponses :=
                [imagesAnswer [sampleImage "7" "web-a"; sampleImage "8" "db";
                               sampleImage "9" "web-b"]];
              detachResults := []; calls := []; files := [] |} in
  exists d' w',
    @dataSourceNcloudMemberServerImagesRead sampleHelpers sampleRegexp sampleSchema d w
    = Returned (d', None) w'
    /\ schema.Id d' = "7,9".
Proof.
  intros d w.
  destruct (@dataSourceNcloudMemberServerImagesRead sampleHelpers sampleRegexp sampleSchema d w)
    as [[d' [err|]] w'| |] eqn:Hread; try (vm_compute in Hread; discriminate).
  exists d', w'. split; [reflexivity|].
  destruct (@dataSourceNcloudMemberServerImagesRead_success
              sampleHelpers sampleRegexp sampleSchema d d' w w' Hread)
    as (resp & filtered & more & Hscript & Hfiltered & _ & Hid & _).
  injection Hscript as <- _.
  vm_compute in Hfiltered. injection Hfiltered as <-.
  rewrite Hid. reflexivity.
Defined.

(** X15: in [memberServerImagesAttributes] the id is set before the
    attribute: when the schema refuses the value of
    [member_server_images], the error is returned with the id already
    changed to the hash of the image numbers, the attributes unchanged
    and no file written.  An image without number makes it panic before
    anything is set. *)
Theorem memberServerImagesAttributes_failures `{Helpers} `{Schema}
        (d : ResourceData) (images : list server.MemberServerImage) (w : World) :
  (forall err,
      Forall (fun m => server.MemberServerImageNo m <> None) images ->
      schema.setError "member_server_images" (flattenMemberServerImages images) = Some err ->
      memberServerImagesAttributes d images w
      = Returned (schema.SetId d (dataResourceIdHash (imageNumbers images)), Some err) w)
  /\ (Exists (fun m => server.MemberServerImageNo m = None) images ->
      memberServerImagesAttributes d images w = Panicked NilDereference w).
Proof.
  unfold memberServerImagesAttributes, bind.
  pose proof (collectIds_spec images []) as Hids.
  destruct (collectIds [] images) as [ids|p]; cbn [liftTry ret panic].
  - destruct Hids as [-> Hall]. cbn [app]. split.
    + intros err _ Herr. unfold schema.Set_. cbn [schema.SetId schema.attrs].
      now rewrite Herr.
    + intros Hex. exfalso. apply Exists_exists in Hex as (m & Hin & Hnone).
      rewrite Forall_forall in Hall. exact (Hall m Hin Hnone).
  - destruct Hids as [-> Hex]. split; [|reflexivity].
    intros err Hall _. exfalso. apply Exists_exists in Hex as (m & Hin & Hnone).
    rewrite Forall_forall in Hall. exact (Hall m Hin Hnone).
Qed.

Lemma memberServerImagesAttributes_failures_witness :
  @memberServerImagesAttributes sampleHelpers sampleSchema emptyData
     [sampleImage "7" "web-a";
      {| server.MemberServerImageNo := None; server.MemberServerImageName := Some "x";
         server.MemberServerImageDescription := None;
         server.OriginalServerInstanceNo := None;
         server.MemberServerImageStatus := None |}] emptyWorld
  = Panicked NilDereference emptyWorld.
Proof.
  apply (@memberServerImagesAttributes_failures sampleHelpers sampleSchema).
  constructor 2. now constructor 1.
Defined.

(** X16: once the region parameter is parsed without error, the read
    of the member server images data source calls
    GetMemberServerImageList once.  When that call answers with an
    error the read returns this error, whatever response comes with it,
    with the resource data unchanged, no file written and the later
    answers unread.  When it answers with a nil response and a nil
    error the read panics on the nil response, after that single
    call. *)
Theorem dataSourceNcloudMemberServerImagesRead_errors
        `{Helpers} `{Regexp} `{Schema} (d : ResourceData) (w : World) :
  (forall regionNo resp err more,
      parseRegionNoParameter d = (regionNo, None) ->
      imageListResponses w = (resp, Some err) :: more ->
      exists w',
        dataSourceNcloudMemberServerImagesRead d w = Returned (d, Some err) w'
        /\ calls w' = calls w ++ [CallGetMemberServerImageList]
        /\ files w' = files w
        /\ imageListResponses w' = more)
  /\ (forall regionNo more,
         parseRegionNoParameter d = (regionNo, None) ->
         imageListResponses w = (None, None) :: more ->
         exists w',
           dataSourceNcloudMemberServerImagesRead d w = Panicked NilDereference w'
           /\ calls w' = calls w ++ [CallGetMemberServerImageList]
           /\ files w' = files w).
Proof.
  unfold dataSourceNcloudMemberServerImagesRead. split.
  - intros regionNo resp err more -> Hscript.
    unfold bind, callGetMemberServerImageList. cbn [logCalls imageListResponses].
    rewrite Hscript. destruct resp; eexists; (split; [reflexivity|]); repeat split.
  - intros regionNo more -> Hscript.
    unfold bind, callGetMemberServerImageList. cbn [logCalls imageListResponses].
    rewrite Hscript. eexists. split; [reflexivity|]. split; reflexivity.
Qed.

Lemma dataSourceNcloudMemberServerImagesRead_errors_witness :
  let w := {| createResponses := []; getResponses := []; stopResponses := [];
              terminateResponses := []; changeSpecResponses := [];
              imageListResponses := [(None, Some "connection refused")];
              detachResults := []; calls := []; files := [] |} in
  exists w',
    @dataSourceNcloudMemberServerImagesRead sampleHelpers sampleRegexp sampleSchema emptyData w
    = Returned (emptyData, Some "connection refused") w'
    /\ calls w' = [CallGetMemberServerImageList].
Proof.
  intros w.
  destruct (@dataSourceNcloudMemberServerImagesRead_errors
              sampleHelpers sampleRegexp sampleSchema emptyData w) as [Hapi _].
  destruct (Hapi None None "connection refused" [] eq_refl eq_refl) as (w' & Hread & Hcalls & _).
  exists w'. split; [exact Hread|exact Hcalls].
Defined.

(** ** Delete, create and update: the calls they make *)

Section CallFacts.
Context `{Constants} `{Helpers} `{Schema} `{Wait}.

Lemma terminateServerInstance_world no w :
  exists n : nat,
    calls (worldOf (terminateServerInstance no w))
    = calls w ++ repeat (CallServer TerminateServerInstances no) n.
Proof.
  unfold terminateServerInstance, bind, Retry. cbn [fst].
  destruct (resource.result _); cbn [ret worldOf setScript logCalls calls]; now eexists.
Qed.

Lemma detachAndTerminate_calls d w :
  exists n : nat,
    calls (worldOf (detachAndTerminate d w))
    = calls w ++ CallDetachBlockStorage (schema.Id d)
              :: repeat (CallServer TerminateServerInstances (schema.Id d)) n.
Proof.
  unfold detachAndTerminate, bind.
  destruct (detachBlockStorageByServerInstanceNo d (schema.Id d) w)
    as [[err|] w3|p w3|w3] eqn:Hdetach.
  - apply detachBlockStorageByServerInstanceNo_calls in Hdetach. exists 0%nat. exact Hdetach.
  - apply detachBlockStorageByServerInstanceNo_calls in Hdetach.
    destruct (terminateServerInstance_world (schema.Id d) w3) as [n Hn].
    exists n.
    destruct (terminateServerInstance (schema.Id d) w3) as [[err|] w4|p w4|w4];
      cbn [worldOf ret] in *; now rewrite Hn, Hdetach, <- app_assoc.
  - exfalso. revert Hdetach. unfold detachBlockStorageByServerInstanceNo.
    now destruct (detachResults _).
  - revert Hdetach. unfold detachBlockStorageByServerInstanceNo.
    cbn [logCalls detachResults]. destruct (detachResults w); [|discriminate].
    intros [= <-]. now exists 0%nat.
Qed.

Lemma changeSpecAttempt_nil_error resp : snd (changeSpecAttempt (resp, None)) = None.
Proof. unfold changeSpecAttempt. now destruct (_ && _). Qed.

Lemma createAttempt_nil_error resp : snd (createAttempt (resp, None)) = None.
Proof. unfold createAttempt. now destruct (_ && _). Qed.

Lemma terminateAttempt_nil_error resp : snd (terminateAttempt (resp, None)) = None.
Proof. unfold terminateAttempt. destruct resp; [now destruct (_ && _)|reflexivity]. Qed.

(** An answer in time on which the closure returns nil ends the run
    after its single call. *)
Lemma Retry_first_nil timeout api arg f w took answer more :
  script api w = (took, answer) :: more ->
  took < timeout ->
  snd (f answer) = None ->
  Retry timeout api arg f w
  = Returned (None, Some answer) (setScript api more (logCalls [CallServer api arg] w)).
Proof.
  intros Hscript Htime Hnil. unfold Retry, resource.retry. rewrite Hscript.
  cbn [resource.retryFrom].
  destruct (Z.leb_spec timeout (0 + took)) as [Hle|_]; [lia|].
  destruct (f answer) as [pause [rerr|]]; [discriminate|reflexivity].
Qed.

End CallFacts.

(** X17: a delete whose fetch finds the instance with the status code
    NSTOP makes, after the fetch, only the detach call followed by
    calls of TerminateServerInstances: it never calls
    StopServerInstances and never polls.  A delete whose fetch fails
    returns that error at once, with the resource data unchanged and no
    further call. *)
Theorem resourceNcloudServerDelete_stopped `{Constants} `{Wait}
        (d : ResourceData) (w : World) :
  (forall instance w1,
      getServerInstance (schema.Id d) w = Returned (Some instance, None) w1 ->
      statusCode instance = Ok "NSTOP" ->
      exists n : nat,
        calls (worldOf (resourceNcloudServerDelete d w))
        = calls w ++ CallServer GetServerInstanceList (schema.Id d)
                  :: CallDetachBlockStorage (schema.Id d)
                  :: repeat (CallServer TerminateServerInstances (schema.Id d)) n)
  /\ (forall instance err w1,
         getServerInstance (schema.Id d) w = Returned (instance, Some err) w1 ->
         resourceNcloudServerDelete d w = Returned (d, Some err) w1
         /\ calls w1 = calls w ++ [CallServer GetServerInstanceList (schema.Id d)]).
Proof.
  split.
  - intros instance w1 Hget Hcode.
    unfold resourceNcloudServerDelete, bind. rewrite Hget.
    rewrite (needsStop_of_code _ _ Hcode), String.eqb_refl. cbn [liftTry ret negb].
    destruct (detachAndTerminate_calls d w1) as [n Hn]. exists n.
    rewrite Hn, (getServerInstance_calls _ _ _ _ Hget), <- app_assoc. reflexivity.
  - intros instance err w1 Hget. split.
    + unfold resourceNcloudServerDelete, bind. rewrite Hget. now destruct instance.
    + exact (getServerInstance_calls _ _ _ _ Hget).
Qed.

Lemma resourceNcloudServerDelete_stopped_witness :
  let d := withAttrs [] "42" in
  let w := {| createResponses := [];
              getResponses := [(time.Second * 1, answerOk [sampleInstance "42" "NSTOP"])];
              stopResponses := [(time.Second * 1, answerOk [])];
              terminateResponses := [(time.Second * 1, answerOk [])];
              changeSpecResponses := []; imageListResponses := [];
              detachResults := [None]; calls := []; files := [] |} in
  exists n : nat,
    calls (worldOf (@resourceNcloudServerDelete sampleConstants sampleWait d w))
    = CallServer GetServerInstanceList "42" :: CallDetachBlockStorage "42"
        :: repeat (CallServer TerminateServerInstances "42") n.
Proof.
  intros d w.
  destruct (@resourceNcloudServerDelete_stopped sampleConstants sampleWait d w) as [Hstopped _].
  apply (Hstopped (sampleInstance "42" "NSTOP")
                  (setScript GetServerInstanceList []
                     (logCalls [CallServer GetServerInstanceList "42"] w)));
    reflexivity.
Defined.

(** X18: an answer with a nil error ends the retry of create,
    terminate and update with success after that single call, whatever
    code its response carries, also a code of the allow-list:
    terminate returns nil, update goes on to the read, create goes on
    to the instance list of that response. *)
Theorem nil_error_ends_retry `{Constants} `{Helpers} `{Schema} `{Wait}
        (d : ResourceData) (serverInstanceNo : string) (w : World)
        (took : Duration) (resp : option server.ServerInstancesResponse)
        (more : list (Duration * ApiResult)) :
  (terminateResponses w = (took, (resp, None)) :: more ->
   took < 1 * time.Minute ->
   terminateServerInstance serverInstanceNo w
   = Returned None
       (setScript TerminateServerInstances more
          (logCalls [CallServer TerminateServerInstances serverInstanceNo] w)))
  /\ (schema.HasChange d "server_product_code" = true ->
      changeSpecResponses w = (took, (resp, None)) :: more ->
      took < TimeoutDelete d ->
      resourceNcloudServerUpdate d w
      = resourceNcloudServerRead d
          (setScript ChangeServerInstanceSpec more
             (logCalls [CallServer ChangeServerInstanceSpec
                          (schema.asString (schema.Get d "server_instance_no"))] w)))
  /\ (forall reqParams,
         buildCreateServerInstanceReqParams d = inl reqParams ->
         createResponses w = (took, (resp, None)) :: more ->
         took < 10 * time.Minute ->
         resourceNcloudServerCreate d w
         = createAfterRetry d (None, Some (resp, None))
             (setScript CreateServerInstances more
                (logCalls [CallServer CreateServerInstances
                             (ncloud.StringValue (server.ReqServerName reqParams))] w))).
Proof.
  split; [|split].
  - intros Hscript Htime. unfold terminateServerInstance, bind.
    now rewrite (Retry_first_nil _ TerminateServerInstances _ _ w _ _ _ Hscript Htime
                   (terminateAttempt_nil_error resp)).
  - intros Hchange Hscript Htime. unfold resourceNcloudServerUpdate, bind. rewrite Hchange.
    now rewrite (Retry_first_nil _ ChangeServerInstanceSpec _ _ w _ _ _ Hscript Htime
                   (changeSpecAttempt_nil_error resp)).
  - intros reqParams Hbuild Hscript Htime.
    unfold resourceNcloudServerCreate, bind. rewrite Hbuild.
    now rewrite (Retry_first_nil _ CreateServerInstances _ _ w _ _ _ Hscript Htime
                   (createAttempt_nil_error resp)).
Qed.

Lemma nil_error_ends_retry_witness :
  let w := {| createResponses := []; getResponses := []; stopResponses := [];
              terminateResponses :=
                [(time.Second * 1,
                  (Some {| server.ReturnCode := Some "25033";
                           server.ReturnMessage := Some "in operation";
                           server.ServerInstanceList := [] |}, None))];
              changeSpecResponses := []; imageListResponses := [];
              detachResults := []; calls := []; files := [] |} in
  exists w', @terminateServerInstance sampleConstants sampleWait "42" w = Returned None w'
             /\ calls w' = [CallServer TerminateServerInstances "42"].
Proof.
  intros w.
  destruct (@nil_error_ends_retry sampleConstants sampleHelpers sampleSchema sampleWait
              emptyData "42" w (time.Second * 1)
              (Some {| server.ReturnCode := Some "25033";
                       server.ReturnMessage := Some "in operation";
                       server.ServerInstanceList := [] |}) [])
    as (Hterminate & _).
  eexists. split; [apply Hterminate; reflexivity|reflexivity].
Defined.

(** X19: an update in which [server_product_code] has not changed is
    the read alone: its only call is the fetch of the instance, it
    never calls ChangeServerInstanceSpec, and it reads no answer of
    that call. *)
Theorem resourceNcloudServerUpdate_unchanged `{Constants} `{Helpers} `{Schema} `{Wait}
        (d : ResourceData) (w : World) :
  schema.HasChange d "server_product_code" = false ->
  resourceNcloudServerUpdate d w = resourceNcloudServerRead d w
  /\ calls (worldOf (resourceNcloudServerUpdate d w))
     = calls w ++ [CallServer GetServerInstanceList (schema.Id d)].
Proof.
  intros Hsame. unfold resourceNcloudServerUpdate. rewrite Hsame.
  split; [reflexivity|apply resourceNcloudServerRead_world].
Qed.

Lemma resourceNcloudServerUpdate_unchanged_witness :
  let d := withAttrs [("server_product_code", VString "SPSVRSTAND000004")] "42" in
  let w := worldWithGets [(time.Second * 1, answerOk [sampleInstance "42" "RUN"])] in
  calls (worldOf (@resourceNcloudServerUpdate sampleConstants sampleHelpers sampleSchema
                    sampleWait d w))
  = [CallServer GetServerInstanceList "42"].
Proof.
  intros d w.
  destruct (@resourceNcloudServerUpdate_unchanged sampleConstants sampleHelpers sampleSchema
              sampleWait d w) as [_ Hcalls]; [reflexivity|].
  exact Hcalls.
Defined.

(** ** Nil pointers *)

(** X21: the code dereferences pointers of the vendor's answers without
    a check.  [getServerInstance] panics on an answer with neither
    response nor error; a delete whose fetch finds an instance without
    status object panics right after the fetch, before any further
    call; a wait panics on such an instance when its answer is in
    time; a create whose retry ends without error and without response
    panics before the id is set. *)
Theorem nil_dereferences `{Constants} `{Helpers} `{Schema} `{Wait}
        (d : ResourceData) (no status : string) (w : World)
        (took : Duration) (more : list (Duration * ApiResult)) :
  (getResponses w = (took, (None, None)) :: more ->
   getServerInstance no w
   = Panicked NilDereference
       (setScript GetServerInstanceList more
          (logCalls [CallServer GetServerInstanceList no] w)))
  /\ (forall instance w1,
         getServerInstance (schema.Id d) w = Returned (Some instance, None) w1 ->
         server.ServerInstanceStatus instance = None ->
         resourceNcloudServerDelete d w = Panicked NilDereference w1)
  /\ (forall resp instance rest,
         getResponses w = (took, (Some resp, None)) :: more ->
         server.ServerInstanceList resp = instance :: rest ->
         server.ServerInstanceStatus instance = None ->
         took < DefaultCreateTimeout ->
         exists w1, waitForServerInstance no status w = Panicked NilDereference w1)
  /\ (forall reqParams,
         buildCreateServerInstanceReqParams d = inl reqParams ->
         createResponses w = (took, (None, None)) :: more ->
         took < 10 * time.Minute ->
         exists w1, resourceNcloudServerCreate d w = Panicked NilDereference w1
                    /\ calls w1
                       = calls w ++ [CallServer CreateServerInstances
                                       (ncloud.StringValue (server.ReqServerName reqParams))]).
Proof.
  split; [|split; [|split]].
  - intros Hscript. unfold getServerInstance, bind, callServer.
    cbn [script logCalls getResponses]. now rewrite Hscript.
  - intros instance w1 Hget Hstatus.
    unfold resourceNcloudServerDelete, bind. rewrite Hget.
    unfold needsStop, statusCode. now rewrite Hstatus.
  - intros resp instance rest Hscript Hlist Hstatus Htime.
    unfold waitForServerInstance. rewrite Hscript. cbn [poll getServerInstanceOf].
    destruct (Z.leb_spec DefaultCreateTimeout (0 + took)) as [Hle|_]; [lia|].
    rewrite Hlist. unfold statusCode. rewrite Hstatus. cbn [pollEnd]. now eexists.
  - intros reqParams Hbuild Hscript Htime.
    unfold resourceNcloudServerCreate, bind. rewrite Hbuild.
    rewrite (Retry_first_nil _ CreateServerInstances _ _ w _ _ _ Hscript Htime
               (createAttempt_nil_error None)).
    eexists. split; reflexivity.
Qed.

Lemma nil_dereferences_witness :
  let w := worldWithGets [(time.Second * 1, (None, None))] in
  exists w1, getServerInstance "42" w = Panicked NilDereference w1.
Proof.
  intros w.
  destruct (@nil_dereferences sampleConstants sampleHelpers sampleSchema sampleWait
              emptyData "42" "RUN" w (time.Second * 1) []) as [Hget _].
  eexists. apply Hget. reflexivity.
Defined.
